(** * Octavia: the nova compute driver and the member response type

    A shallow embedding of
    - [octavia/compute/drivers/nova_driver.py]: [VirtualMachineManager]
      ([build], [delete], [status], [get_amphora], [_translate_amphora]) and
      [NovaKeystoneAuth] ([_get_keystone_session], [get_nova_client]);
    - [octavia/api/v2/types/member.py]: [MemberResponse.from_data_model].

    Python code that raises, logs, calls the remote provider and assigns class
    attributes is embedded in a state-and-exception monad over a [world]:
    the provider's state, the trace of calls that left the process, the log
    and the two class attributes of [NovaKeystoneAuth]. *)

From stdpp Require Import base strings gmap list relations.

Set Default Proof Using "Type".
Local Open Scope string_scope.
Local Open Scope list_scope.

(* ===================================================================== *)
(** * Part I: definitions *)
(* ===================================================================== *)

(** ** Exceptions *)

(** The exception classes the driver meets.  The four [Compute*Exception]
    classes are the ones of [octavia.common.exceptions] the driver raises;
    [TypeError], [AttributeError], [IndexError] and [KeyError] are raised by
    the Python operations the driver performs (iteration, attribute access,
    subscripts); [LibraryError] stands for any other subclass of [Exception]
    that a client library raises (a [NotFound], a connection error, ...).
    [KeyboardInterrupt] and [SystemExit] derive from [BaseException] only. *)
Inductive exn : Type :=
  | ComputeBuildException
  | ComputeDeleteException
  | ComputeStatusException
  | ComputeGetException
  | TypeError
  | AttributeError
  | IndexError
  | KeyError
  | LibraryError (cls : string)
  | KeyboardInterrupt
  | SystemExit.

(** [isinstance(e, Exception)]: what an [except Exception:] clause catches. *)
Definition is_Exception (e : exn) : bool :=
  match e with
  | KeyboardInterrupt | SystemExit => false
  | _ => true
  end.

(** The four domain error kinds of the driver. *)
Definition is_domain_error (e : exn) : bool :=
  match e with
  | ComputeBuildException | ComputeDeleteException
  | ComputeStatusException | ComputeGetException => true
  | _ => false
  end.

(** Outcome of running a piece of Python: a value or a raised exception. *)
Inductive result (A : Type) : Type :=
  | Return (a : A)
  | Raise (e : exn).
Arguments Return {A} a.
Arguments Raise {A} e.

Definition is_Return {A} (r : result A) : bool :=
  match r with Return _ => true | Raise _ => false end.

(** ** Objects of the client libraries *)

(** [keystoneclient.auth.identity.v3.Password(auth_url=, username=,
    password=, project_id=)]. *)
Record Password : Type := {
  auth_url : string;
  username : string;
  password : string;
  project_id : string
}.

(** [keystoneclient.session.Session(auth=)]. *)
Record Session : Type := { auth : Password }.

(** [novaclient.client.Client(version, session=, region_name=)].  The
    session is the value [_get_keystone_session] returned and the region is
    the caller's argument; both may be [None] in Python. *)
Record Client : Type := {
  version : string;
  session : option Session;
  region_name : option string
}.

(** [client.servers]: the server manager bound to a client. *)
Record ServerManager : Type := { api : Client }.

Definition servers (c : Client) : ServerManager := {| api := c |}.

(** The provider's view of a virtual machine ([novaclient] [Server]):
    [addresses] is a dict from network name to a list of dicts. *)
Module nova.
Record Server : Type := {
  id : string;
  status : string;
  addresses : gmap string (list (gmap string string))
}.
End nova.

(** Keyword arguments of [manager.create]. *)
Record create_kwargs : Type := {
  kw_name : string;
  kw_image : option string;
  kw_flavor : option string;
  kw_key_name : option string;
  kw_security_groups : option (list string);
  kw_nics : list (gmap string string);
  kw_config_drive_files : option (gmap string string);
  kw_user_data : option string;
  kw_config_drive : bool
}.

(** ** The world *)

(** A call that leaves the process. *)
Inductive call : Type :=
  | CallPassword (a : Password)
  | CallSession (s : Session)
  | CallClient (c : Client)
  | CallCreate (m : ServerManager) (kw : create_kwargs)
  | CallDelete (m : ServerManager) (server : string)
  | CallGet (m : ServerManager) (server : string).

Record event : Type := { ev_call : call; ev_ok : bool }.

(** What lies outside the process, over a provider state [P]: each library
    call reads and changes the provider's state and returns or raises.
    Constructors are [__init__] methods: they return [None]. *)
Class Provider (P : Type) : Type := {
  Password_init : Password -> P -> result () * P;
  Session_init : Session -> P -> result () * P;
  Client_init : Client -> P -> result () * P;
  servers_create : ServerManager -> create_kwargs -> P -> result nova.Server * P;
  servers_delete : ServerManager -> string -> P -> result () * P;
  servers_get : ServerManager -> string -> P -> result (option nova.Server) * P
}.

(** The options of [CONF] the driver reads. *)
Class Config : Type := {
  keystone_authtoken_auth_uri : string;
  keystone_authtoken_admin_user : string;
  keystone_authtoken_admin_password : string;
  keystone_authtoken_admin_project_id : string;
  networking_lb_network_name : string
}.

Record world (P : Type) : Type := {
  provider : P;
  events : list event;
  log : list string;
  (* class attributes of NovaKeystoneAuth *)
  NovaKeystoneAuth_keystone_session : option Session;
  NovaKeystoneAuth_nova_client : option Client
}.
Arguments provider {P} w.
Arguments events {P} w.
Arguments log {P} w.
Arguments NovaKeystoneAuth_keystone_session {P} w.
Arguments NovaKeystoneAuth_nova_client {P} w.

(** A freshly started process: nothing cached, nothing logged or called. *)
Definition fresh {P} (p : P) : world P :=
  {| provider := p; events := []; log := [];
     NovaKeystoneAuth_keystone_session := None;
     NovaKeystoneAuth_nova_client := None |}.

(** The world after [msg] went to the log. *)
Definition logged {P} (msg : string) (w : world P) : world P :=
  {| provider := provider w; events := events w;
     log := log w ++ [msg];
     NovaKeystoneAuth_keystone_session := NovaKeystoneAuth_keystone_session w;
     NovaKeystoneAuth_nova_client := NovaKeystoneAuth_nova_client w |}.

(** The world after call [c] left the process, returned ([ok]) or raised,
    and left the provider in state [p]. *)
Definition called {P} (c : call) (ok : bool) (p : P) (w : world P) : world P :=
  {| provider := p;
     events := events w ++ [{| ev_call := c; ev_ok := ok |}];
     log := log w;
     NovaKeystoneAuth_keystone_session := NovaKeystoneAuth_keystone_session w;
     NovaKeystoneAuth_nova_client := NovaKeystoneAuth_nova_client w |}.

(** The world after an assignment to a class attribute. *)
Definition with_keystone_session {P} (v : option Session) (w : world P)
  : world P :=
  {| provider := provider w; events := events w; log := log w;
     NovaKeystoneAuth_keystone_session := v;
     NovaKeystoneAuth_nova_client := NovaKeystoneAuth_nova_client w |}.

Definition with_nova_client {P} (v : option Client) (w : world P) : world P :=
  {| provider := provider w; events := events w; log := log w;
     NovaKeystoneAuth_keystone_session := NovaKeystoneAuth_keystone_session w;
     NovaKeystoneAuth_nova_client := v |}.

(** ** The monad *)

Definition M (P A : Type) : Type := world P -> result A * world P.

Section Monad.
Context {P : Type}.

Definition ret {A} (a : A) : M P A := fun w => (Return a, w).

Definition raise {A} (e : exn) : M P A := fun w => (Raise e, w).

Definition bind {A B} (m : M P A) (k : A -> M P B) : M P B :=
  fun w =>
    match m w with
    | (Return a, w') => k a w'
    | (Raise e, w') => (Raise e, w')
    end.

(** [try: body / except Exception: handler].  What the body did to the
    world before it raised stays done. *)
Definition try_except_Exception {A} (body : M P A) (handler : exn -> M P A)
  : M P A :=
  fun w =>
    match body w with
    | (Return a, w') => (Return a, w')
    | (Raise e, w') =>
        if is_Exception e then handler e w' else (Raise e, w')
    end.

(** [with excutils.save_and_reraise_exception(): body] inside the handler
    of exception [e] ([oslo.utils]): the body runs, then [e] is raised
    again; an exception of the body itself replaces [e]. *)
Definition save_and_reraise_exception {A} (e : exn) (body : M P ()) : M P A :=
  bind body (fun _ => raise e).

(** [LOG.exception(msg)]. *)
Definition LOG_exception (msg : string) : M P () :=
  fun w => (Return (), logged msg w).

(** A call [c] to a client library: the provider answers and the call is
    appended to the trace. *)
Definition extern {A} (c : call) (f : P -> result A * P) : M P A :=
  fun w =>
    let (r, p') := f (provider w) in
    (r, called c (is_Return r) p' w).

(** [for x in xs: acc = body(x, acc)]. *)
Fixpoint for_in {X A} (xs : list X) (body : X -> A -> M P A) (acc : A)
  : M P A :=
  match xs with
  | [] => ret acc
  | x :: xs' => bind (body x acc) (fun acc' => for_in xs' body acc')
  end.
End Monad.

(** The monad's operations under stdpp's notations [x ← m; k] and [m;; k]. *)
Global Instance M_ret {P} : MRet (M P) := fun A => @ret P A.
Global Instance M_bind {P} : MBind (M P) := fun A B k m => @bind P A B m k.

(** ** Python values and operations *)

(** The values [build] may be handed as [network_ids]: [None] (the default),
    a number, or a list of network identifiers. *)
Inductive pyval : Type :=
  | PyNone
  | PyInt (n : Z)
  | PyList (items : list string).

Definition iterable (v : pyval) : bool :=
  match v with PyList _ => true | _ => false end.

(** Truth value of an attribute that holds [None] or an object whose class
    defines neither [__bool__] nor [__len__]. *)
Definition truthy {A} (o : option A) : bool :=
  match o with Some _ => true | None => false end.

Section PyOps.
Context {P : Type}.

(** [iter(v)], as the [for] statement calls it. *)
Definition py_iter (v : pyval) : M P (list string) :=
  match v with
  | PyList items => ret items
  | PyNone | PyInt _ => raise TypeError
  end.

(** [d[k]] on a dict. *)
Definition dict_getitem {V} (d : gmap string V) (k : string) : M P V :=
  match d !! k with
  | Some v => ret v
  | None => raise KeyError
  end.

(** [l[i]] on a list, [i] not negative. *)
Definition list_getitem {V} (l : list V) (i : nat) : M P V :=
  match l !! i with
  | Some v => ret v
  | None => raise IndexError
  end.

(** The keys of a dict, as [for k in d] visits them: each key once.  The
    order is the map's own; the loop of [_translate_amphora] is shown not to
    depend on it ([for_in_visit]). *)
Definition dict_keys {V} (d : gmap string V) : list string :=
  (map_to_list d).*1.
End PyOps.

(** ** [octavia.common]: constants and data models *)

(** Modelled from the spec: [octavia.common.constants] is not among the
    sources; [status] answers with a binary indicator, UP or DOWN. *)
Inductive amphora_status : Type :=
  | AMPHORA_UP
  | AMPHORA_DOWN.

(** The API version string [constants.NOVA_2], whose value is not among the
    sources. *)
Class Constants : Type := { NOVA_2 : string }.

(** Modelled from the spec: [octavia.common.data_models.Amphora] is not among
    the sources; the driver fills the compute id, the raw status and the
    address on the management network, which may be [None]. *)
Module models.
Record Amphora : Type := {
  compute_id : string;
  status : string;
  lb_network_ip : option string
}.
End models.

(** ** [class NovaKeystoneAuth] *)

Module NovaKeystoneAuth.
Section NovaKeystoneAuth.
Context {P : Type} {prov : Provider P} {CONF : Config} {consts : Constants}.

(** Reads and assignments of the class attributes. *)
Definition read_keystone_session : M P (option Session) :=
  fun w => (Return (NovaKeystoneAuth_keystone_session w), w).

Definition write_keystone_session (v : option Session) : M P () :=
  fun w => (Return (), with_keystone_session v w).

Definition read_nova_client : M P (option Client) :=
  fun w => (Return (NovaKeystoneAuth_nova_client w), w).

Definition write_nova_client (v : option Client) : M P () :=
  fun w => (Return (), with_nova_client v w).

(** The three constructors of the client libraries. *)
Definition keystone_client_Password (a : Password) : M P Password :=
  extern (CallPassword a) (Password_init a);; ret a.

Definition session_Session (s : Session) : M P Session :=
  extern (CallSession s) (Session_init s);; ret s.

Definition nova_client_Client (c : Client) : M P Client :=
  extern (CallClient c) (Client_init c);; ret c.

Definition _get_keystone_session : M P (option Session) :=
  cached ← read_keystone_session;
  (if negb (truthy cached) then
     try_except_Exception
       (kc ← keystone_client_Password
               {| auth_url := keystone_authtoken_auth_uri;
                  username := keystone_authtoken_admin_user;
                  password := keystone_authtoken_admin_password;
                  project_id := keystone_authtoken_admin_project_id |};
        s ← session_Session {| auth := kc |};
        write_keystone_session (Some s))
       (fun e =>
          save_and_reraise_exception e
            (LOG_exception "Error creating Keystone session."))
   else ret ());;
  read_keystone_session.

Definition get_nova_client (region : option string) : M P (option Client) :=
  cached ← read_nova_client;
  (if negb (truthy cached) then
     try_except_Exception
       (s ← _get_keystone_session;
        c ← nova_client_Client
               {| version := NOVA_2; session := s; region_name := region |};
        write_nova_client (Some c))
       (fun e =>
          save_and_reraise_exception e
            (LOG_exception "Error creating Nova client."))
   else ret ());;
  read_nova_client.
End NovaKeystoneAuth.
End NovaKeystoneAuth.

(** ** [class VirtualMachineManager] *)

Module VirtualMachineManager.

(** An instance: the attributes [__init__] sets. *)
Record instance : Type := {
  _nova_client : Client;
  manager : ServerManager
}.

Section VirtualMachineManager.
Context {P : Type} {prov : Provider P} {CONF : Config} {consts : Constants}.

Definition __init__ (region : option string) : M P instance :=
  c ← NovaKeystoneAuth.get_nova_client region;
  match c with
  | Some c => ret {| _nova_client := c; manager := servers c |}
  | None => raise AttributeError
  end.

(** The three methods of the server manager the driver calls. *)
Definition manager_create (m : ServerManager) (kw : create_kwargs)
  : M P nova.Server :=
  extern (CallCreate m kw) (servers_create m kw).

Definition manager_delete (m : ServerManager) (server : string) : M P () :=
  extern (CallDelete m server) (servers_delete m server).

Definition manager_get (m : ServerManager) (server : string)
  : M P (option nova.Server) :=
  extern (CallGet m server) (servers_get m server).

Definition build (self : instance) (name : string)
    (amphora_flavor image_id key_name : option string)
    (sec_groups : option (list string)) (network_ids : pyval)
    (config_drive_files : option (gmap string string))
    (user_data : option string) : M P string :=
  try_except_Exception
    (net_ids ← py_iter network_ids;
     nics ← for_in net_ids
              (fun net_id nics => ret (nics ++ [{[ "net-id" := net_id ]}]))
              [];
     amphora ← manager_create (manager self)
                 {| kw_name := name; kw_image := image_id;
                    kw_flavor := amphora_flavor; kw_key_name := key_name;
                    kw_security_groups := sec_groups; kw_nics := nics;
                    kw_config_drive_files := config_drive_files;
                    kw_user_data := user_data; kw_config_drive := true |};
     ret (nova.id amphora))
    (fun _ =>
       LOG_exception "Error building nova virtual machine.";;
       raise ComputeBuildException).

Definition delete (self : instance) (amphora_id : string) : M P () :=
  try_except_Exception
    (manager_delete (manager self) amphora_id)
    (fun _ =>
       LOG_exception "Error deleting nova virtual machine.";;
       raise ComputeDeleteException).

Definition _translate_amphora (self : instance)
    (nova_response : option nova.Server) : M P models.Amphora :=
  match nova_response with
  | None => raise AttributeError
  | Some nova_response =>
      lb_network_ip ←
        for_in (dict_keys (nova.addresses nova_response))
          (fun network_name lb_network_ip =>
             if String.eqb network_name networking_lb_network_name then
               addrs ← dict_getitem (nova.addresses nova_response) network_name;
               first ← list_getitem addrs 0;
               addr ← dict_getitem first "addr";
               ret (Some addr)
             else ret lb_network_ip)
          None;
      ret {| models.compute_id := nova.id nova_response;
             models.status := nova.status nova_response;
             models.lb_network_ip := lb_network_ip |}
  end.

Definition get_amphora (self : instance) (amphora_id : string)
  : M P models.Amphora :=
  amphora ← try_except_Exception
               (manager_get (manager self) amphora_id)
               (fun _ =>
                  LOG_exception "Error retrieving nova virtual machine.";;
                  raise ComputeGetException);
  _translate_amphora self amphora.

(** The [try] block of [status] either returns from the method ([Some]) or
    falls through to the statement after it ([None]).  [amphora] is a
    data-model object, which is true in a condition. *)
Definition status (self : instance) (amphora_id : string)
  : M P amphora_status :=
  returned ← try_except_Exception
                (amphora ← get_amphora self amphora_id;
                 if truthy (Some amphora)
                    && String.eqb (models.status amphora) "ACTIVE"
                 then ret (Some AMPHORA_UP)
                 else ret None)
                (fun _ =>
                   LOG_exception "Error retrieving nova virtual machine status.";;
                   raise ComputeStatusException);
  match returned with
  | Some v => ret v
  | None => ret AMPHORA_DOWN
  end.
End VirtualMachineManager.
End VirtualMachineManager.

(** ** The life of a process *)

Definition with_provider {P} (p : P) (w : world P) : world P :=
  {| provider := p; events := events w; log := log w;
     NovaKeystoneAuth_keystone_session := NovaKeystoneAuth_keystone_session w;
     NovaKeystoneAuth_nova_client := NovaKeystoneAuth_nova_client w |}.

(** A session came into being: a [Session] constructor call that returned. *)
Definition session_created (ev : event) : bool :=
  match ev_call ev with
  | CallSession _ => ev_ok ev
  | _ => false
  end.

Definition sessions_created {P} (w : world P) : nat :=
  length (List.filter session_created (events w)).

Section Process.
Context {P : Type} {prov : Provider P} {CONF : Config} {consts : Constants}.

(** One step of a process: any call of any function of the module with any
    arguments, whatever its outcome, or a change of the provider's state
    that the process did not cause. *)
Inductive step : world P -> world P -> Prop :=
  | step_get_keystone_session w :
      step w (NovaKeystoneAuth._get_keystone_session w).2
  | step_get_nova_client w region :
      step w (NovaKeystoneAuth.get_nova_client region w).2
  | step_init w region :
      step w (VirtualMachineManager.__init__ region w).2
  | step_build w self name flavor image key groups nets files data :
      step w (VirtualMachineManager.build self name flavor image key groups
                nets files data w).2
  | step_delete w self amphora_id :
      step w (VirtualMachineManager.delete self amphora_id w).2
  | step_status w self amphora_id :
      step w (VirtualMachineManager.status self amphora_id w).2
  | step_get_amphora w self amphora_id :
      step w (VirtualMachineManager.get_amphora self amphora_id w).2
  | step_translate_amphora w self nova_response :
      step w (VirtualMachineManager._translate_amphora self nova_response w).2
  | step_provider w p :
      step w (with_provider p w).

Definition reachable : world P -> world P -> Prop := rtc step.
End Process.

(** ** [octavia/api/v2/types/member.py] *)

Module member.

(** The value of a [wsme] attribute: [wtypes.Unset], [None] or a value. *)
Inductive wsattr (A : Type) : Type :=
  | Unset
  | WsNone
  | Value (a : A).
Arguments Unset {A}.
Arguments WsNone {A}.
Arguments Value {A} a.

(** Truth value of a string attribute: [Unset], [None] and the empty
    string are false. *)
Definition truth (v : wsattr string) : bool :=
  match v with
  | Unset | WsNone => false
  | Value s => negb (String.eqb s "")
  end.

(** Dates as seconds since the epoch. *)
Definition datetime : Type := Z.

Record MemberResponse : Type := {
  id : wsattr string;
  name : wsattr string;
  operating_status : wsattr string;
  provisioning_status : wsattr string;
  admin_state_up : wsattr bool;
  address : wsattr string;
  protocol_port : wsattr Z;
  weight : wsattr Z;
  subnet_id : wsattr string;
  project_id : wsattr string;
  created_at : wsattr datetime;
  updated_at : wsattr datetime
}.

(** [member.name = v]. *)
Definition set_name (v : wsattr string) (m : MemberResponse) : MemberResponse :=
  {| id := id m; name := v;
     operating_status := operating_status m;
     provisioning_status := provisioning_status m;
     admin_state_up := admin_state_up m; address := address m;
     protocol_port := protocol_port m; weight := weight m;
     subnet_id := subnet_id m; project_id := project_id m;
     created_at := created_at m; updated_at := updated_at m |}.

(** [BaseMemberType], as far as [from_data_model] needs it: the inherited
    [from_data_model] of [octavia.api.common.types.BaseType], which is not
    among the sources, over some type of data models. *)
Class BaseMemberType (data_model : Type) : Type := {
  super_from_data_model : data_model -> bool -> result MemberResponse
}.

Section MemberResponse.
Context {data_model : Type} `{!BaseMemberType data_model}.

Definition from_data_model (dm : data_model) (children : bool)
  : result MemberResponse :=
  match super_from_data_model dm children with
  | Raise e => Raise e
  | Return member =>
      let member :=
        if negb (truth (name member)) then set_name (Value "") member
        else member in
      Return member
  end.
End MemberResponse.
End member.

(** ** A small provider, for examples *)

Module example.

(** A cloud that is on line or not and keeps its servers by identifier. *)
Record cloud : Type := {
  online : bool;
  vms : gmap string nova.Server
}.

Definition unreachable : exn := LibraryError "ConnectionRefused".
Definition not_found : exn := LibraryError "NotFound".

Definition answer {A} (c : cloud) (r : result A * cloud) : result A * cloud :=
  if online c then r else (Raise unreachable, c).

(** A new server is named after the request, is still building and sits on
    the management network. *)
Definition new_server (kw : create_kwargs) : nova.Server :=
  {| nova.id := "vm-" +:+ kw_name kw;
     nova.status := "BUILD";
     nova.addresses := {[ "mgmt" := [ {[ "addr" := "192.168.1.9" ]} ] ]} |}.

Definition cloud_provider : Provider cloud :=
  {| Password_init := fun _ c => answer c (Return (), c);
     Session_init := fun _ c => answer c (Return (), c);
     Client_init := fun _ c => answer c (Return (), c);
     servers_create := fun _ kw c =>
       answer c
         (Return (new_server kw),
          {| online := true;
             vms := <[ nova.id (new_server kw) := new_server kw ]> (vms c) |});
     servers_delete := fun _ server c =>
       answer c
         (match vms c !! server with
          | Some _ => (Return (), {| online := true; vms := delete server (vms c) |})
          | None => (Raise not_found, c)
          end);
     servers_get := fun _ server c =>
       answer c
         (match vms c !! server with
          | Some s => (Return (Some s), c)
          | None => (Raise not_found, c)
          end) |}.

Definition conf : Config :=
  {| keystone_authtoken_auth_uri := "http://keystone:5000/v3";
     keystone_authtoken_admin_user := "octavia";
     keystone_authtoken_admin_password := "secret";
     keystone_authtoken_admin_project_id := "service";
     networking_lb_network_name := "mgmt" |}.

Definition consts : Constants := {| NOVA_2 := "2" |}.

(** The instance of the specification's example: two networks, the second
    one the management network. *)
Definition vm_123 : nova.Server :=
  {| nova.id := "vm-123";
     nova.status := "ACTIVE";
     nova.addresses :=
       {[ "public" := [ {[ "addr" := "10.0.0.5" ]} ];
          "mgmt" := [ {[ "addr" := "192.168.1.9" ]} ] ]} |}.

(** A server whose management network lists no address. *)
Definition vm_bare : nova.Server :=
  {| nova.id := "vm-bare";
     nova.status := "ACTIVE";
     nova.addresses := {[ "mgmt" := [] ]} |}.

Definition up : cloud :=
  {| online := true; vms := {[ "vm-123" := vm_123; "vm-bare" := vm_bare ]} |}.

Definition down : cloud := {| online := false; vms := ∅ |}.

Definition the_password : Password :=
  {| auth_url := "http://keystone:5000/v3"; username := "octavia";
     password := "secret"; project_id := "service" |}.

Definition the_client (region : option string) : Client :=
  {| version := "2"; session := Some {| auth := the_password |};
     region_name := region |}.

Definition driver (region : option string) : VirtualMachineManager.instance :=
  {| VirtualMachineManager._nova_client := the_client region;
     VirtualMachineManager.manager := servers (the_client region) |}.

(** A provider that also answers [None] for a server it does not know. *)
Definition quiet_provider : Provider cloud :=
  {| Password_init := Password_init (Provider := cloud_provider);
     Session_init := Session_init (Provider := cloud_provider);
     Client_init := Client_init (Provider := cloud_provider);
     servers_create := servers_create (Provider := cloud_provider);
     servers_delete := servers_delete (Provider := cloud_provider);
     servers_get := fun _ server c => (Return (vms c !! server), c) |}.

(** A server that sits on the public network only. *)
Definition vm_public : nova.Server :=
  {| nova.id := "vm-public";
     nova.status := "ACTIVE";
     nova.addresses := {[ "public" := [ {[ "addr" := "10.0.0.5" ]} ] ]} |}.

(** A provider whose compute endpoint cannot be found: sessions can be had,
    clients cannot. *)
Definition no_endpoint : exn := LibraryError "EndpointNotFound".

Definition no_compute_provider : Provider cloud :=
  {| Password_init := Password_init (Provider := cloud_provider);
     Session_init := Session_init (Provider := cloud_provider);
     Client_init := fun _ c => (Raise no_endpoint, c);
     servers_create := servers_create (Provider := cloud_provider);
     servers_delete := servers_delete (Provider := cloud_provider);
     servers_get := servers_get (Provider := cloud_provider) |}.

(** A process that asked for a client in RegionOne, then built a server. *)
Definition started : world cloud :=
  (NovaKeystoneAuth.get_nova_client (prov := cloud_provider) (CONF := conf)
     (consts := consts) (Some "RegionOne") (fresh up)).2.

Definition later : world cloud :=
  (VirtualMachineManager.build (prov := cloud_provider)
     (driver (Some "RegionOne")) "amphora-1" None (Some "img-1") None None
     (PyList ["net-a"; "net-b"]) None None started).2.

(** A mapping of data models that are a name or nothing. *)
Definition blank : member.MemberResponse :=
  {| member.id := member.Unset; member.name := member.Unset;
     member.operating_status := member.Unset;
     member.provisioning_status := member.Unset;
     member.admin_state_up := member.Unset; member.address := member.Unset;
     member.protocol_port := member.Unset; member.weight := member.Unset;
     member.subnet_id := member.Unset; member.project_id := member.Unset;
     member.created_at := member.Unset; member.updated_at := member.Unset |}.

Definition named_base : member.BaseMemberType (option string) :=
  {| member.super_from_data_model := fun dm _ =>
       Return (member.set_name
                 (match dm with
                  | Some name => member.Value name
                  | None => member.WsNone
                  end) blank) |}.

End example.

(** ** The specification's words *)

(** The network-attachment descriptor of a network identifier. *)
Definition nic (net_id : string) : gmap string string := {[ "net-id" := net_id ]}.

(** The create request for a list of network identifiers: one descriptor per
    identifier, in the order of the list, and the config drive switched on. *)
Definition create_request (name : string)
    (amphora_flavor image_id key_name : option string)
    (sec_groups : option (list string)) (net_ids : list string)
    (config_drive_files : option (gmap string string))
    (user_data : option string) : create_kwargs :=
  {| kw_name := name; kw_image := image_id; kw_flavor := amphora_flavor;
     kw_key_name := key_name; kw_security_groups := sec_groups;
     kw_nics := nic <$> net_ids;
     kw_config_drive_files := config_drive_files;
     kw_user_data := user_data; kw_config_drive := true |}.

(** The first address listed on the network whose name is the configured
    management-network name. *)
Definition management_address {CONF : Config} (server : nova.Server)
  : option string :=
  addrs ← nova.addresses server !! networking_lb_network_name;
  first ← head addrs;
  first !! "addr".

(** What the subscript chain [addresses[name][0]['addr']] evaluates to on
    the management network. *)
Definition subscripts {CONF : Config} (server : nova.Server) : result (option string) :=
  match nova.addresses server !! networking_lb_network_name with
  | None => Raise KeyError
  | Some addrs =>
      match addrs !! 0%nat with
      | None => Raise IndexError
      | Some first =>
          match first !! "addr" with
          | None => Raise KeyError
          | Some addr => Return (Some addr)
          end
      end
  end.

(** The body of the loop of [_translate_amphora]. *)
Definition visit {P} {CONF : Config} (server : nova.Server)
    (network_name : string) (lb_network_ip : option string)
  : M P (option string) :=
  if String.eqb network_name networking_lb_network_name then
    addrs ← dict_getitem (nova.addresses server) network_name;
    first ← list_getitem addrs 0;
    addr ← dict_getitem first "addr";
    ret (Some addr)
  else ret lb_network_ip.

(** The credentials and the session [_get_keystone_session] builds from the
    configuration. *)
Definition configured_credentials {CONF : Config} : Password :=
  {| auth_url := keystone_authtoken_auth_uri;
     username := keystone_authtoken_admin_user;
     password := keystone_authtoken_admin_password;
     project_id := keystone_authtoken_admin_project_id |}.

Definition configured_session {CONF : Config} : Session :=
  {| auth := configured_credentials |}.

(** ** What a process keeps *)

(** The part of the world the caches are about. *)
Definition auth_view {P} (w : world P) : option Session * option Client * nat :=
  (NovaKeystoneAuth_keystone_session w, NovaKeystoneAuth_nova_client w,
   sessions_created w).

(** A computation that touches neither cache and creates no session. *)
Definition quiet {P A} (m : M P A) : Prop :=
  forall w, auth_view (m w).2 = auth_view w.

(** From [w] to [w']: a cached session stays, and no other session is
    created beside it; without one, at most one is created, and cached. *)
Definition session_kept {P} (w w' : world P) : Prop :=
  match NovaKeystoneAuth_keystone_session w with
  | Some s =>
      NovaKeystoneAuth_keystone_session w' = Some s /\
      sessions_created w' = sessions_created w
  | None =>
      (NovaKeystoneAuth_keystone_session w' = None /\
       sessions_created w' = sessions_created w) \/
      (is_Some (NovaKeystoneAuth_keystone_session w') /\
       sessions_created w' = S (sessions_created w))
  end.

(** From [w] to [w']: a cached client stays. *)
Definition client_kept {P} (w w' : world P) : Prop :=
  forall c, NovaKeystoneAuth_nova_client w = Some c ->
            NovaKeystoneAuth_nova_client w' = Some c.

Definition caches_kept {P} (w w' : world P) : Prop :=
  session_kept w w' /\ client_kept w w'.

(** ** Further definitions *)

(** [_translate_amphora] on a server, with the names of the networks visited
    in a given order: the loop and the construction of the amphora are the
    ones of the source, which visits [dict_keys (nova.addresses server)]. *)
Definition translate_in_order {P} {CONF : Config} (names : list string)
    (nova_response : nova.Server) : M P models.Amphora :=
  lb_network_ip ←
    for_in names
      (fun network_name lb_network_ip =>
         if String.eqb network_name networking_lb_network_name then
           addrs ← dict_getitem (nova.addresses nova_response) network_name;
           first ← list_getitem addrs 0;
           addr ← dict_getitem first "addr";
           ret (Some addr)
         else ret lb_network_ip)
      None;
  ret {| models.compute_id := nova.id nova_response;
         models.status := nova.status nova_response;
         models.lb_network_ip := lb_network_ip |}.

(** What the caches of a process hold, if anything: the session built from
    the configuration, and a client of API version [NOVA_2] on that session,
    which is then cached too. *)
Definition caches_configured {P} {CONF : Config} {consts : Constants}
    (w : world P) : Prop :=
  (forall s, NovaKeystoneAuth_keystone_session w = Some s ->
             s = configured_session) /\
  (forall c, NovaKeystoneAuth_nova_client w = Some c ->
             version c = NOVA_2 /\
             session c = Some configured_session /\
             NovaKeystoneAuth_keystone_session w = Some configured_session).

(** Further examples. *)
Module scenario.

(** A server on the management network only, otherwise like
    [example.vm_123]. *)
Definition vm_123_mgmt_only : nova.Server :=
  {| nova.id := "vm-123";
     nova.status := "ACTIVE";
     nova.addresses := {[ "mgmt" := [ {[ "addr" := "192.168.1.9" ]} ] ]} |}.

(** A server whose first management address has no ['addr'] entry. *)
Definition vm_no_addr_key : nova.Server :=
  {| nova.id := "vm-odd";
     nova.status := "ACTIVE";
     nova.addresses := {[ "mgmt" := [ {[ "version" := "4" ]} ] ]} |}.

(** A process whose first request for a client met a cloud off line. *)
Definition failed : world example.cloud :=
  (NovaKeystoneAuth.get_nova_client (prov := example.cloud_provider)
     (CONF := example.conf) (consts := example.consts) (Some "RegionOne")
     (fresh example.down)).2.

(** The same process once the cloud is back. *)
Definition recovered : world example.cloud := with_provider example.up failed.

(** A provider whose identity service always answers and whose compute
    endpoint answers when the cloud is on line. *)
Definition late_compute_provider : Provider example.cloud :=
  {| Password_init := fun _ c => (Return (), c);
     Session_init := fun _ c => (Return (), c);
     Client_init := fun _ c => example.answer c (Return (), c);
     servers_create := servers_create (Provider := example.cloud_provider);
     servers_delete := servers_delete (Provider := example.cloud_provider);
     servers_get := servers_get (Provider := example.cloud_provider) |}.

(** A process that has its session but could not have a client. *)
Definition half_way : world example.cloud :=
  (NovaKeystoneAuth.get_nova_client (prov := late_compute_provider)
     (CONF := example.conf) (consts := example.consts) (Some "RegionOne")
     (fresh example.down)).2.

End scenario.

(* ===================================================================== *)
(** * Part II: theorems *)
(* ===================================================================== *)

(** ** Running the monad *)

Section Run.
Context {P : Type}.

Lemma run_bind {A B} (m : M P A) (k : A -> M P B) (w : world P) :
  (m ≫= k) w =
  match m w with
  | (Return a, w') => k a w'
  | (Raise e, w') => (Raise e, w')
  end.
Proof. reflexivity. Qed.

Lemma run_ret_bind {A B} (a : A) (k : A -> M P B) (w : world P) :
  (ret a ≫= k) w = k a w.
Proof. reflexivity. Qed.

Lemma run_raise_bind {A B} (e : exn) (k : A -> M P B) (w : world P) :
  (raise e ≫= k) w = (Raise e, w).
Proof. reflexivity. Qed.

Lemma run_bind_Return {A B} (m : M P A) (k : A -> M P B) w a w' :
  m w = (Return a, w') -> (m ≫= k) w = k a w'.
Proof. intros Hm. rewrite run_bind, Hm. reflexivity. Qed.

Lemma run_bind_Raise {A B} (m : M P A) (k : A -> M P B) w e w' :
  m w = (Raise e, w') -> (m ≫= k) w = (Raise e, w').
Proof. intros Hm. rewrite run_bind, Hm. reflexivity. Qed.

Lemma run_try_Return {A} (body : M P A) handler w a w' :
  body w = (Return a, w') -> try_except_Exception body handler w = (Return a, w').
Proof. intros Hb. unfold try_except_Exception. rewrite Hb. reflexivity. Qed.

Lemma run_try_caught {A} (body : M P A) handler w e w' :
  body w = (Raise e, w') -> is_Exception e = true ->
  try_except_Exception body handler w = handler e w'.
Proof. intros Hb He. unfold try_except_Exception. rewrite Hb, He. reflexivity. Qed.

Lemma run_try_passed {A} (body : M P A) handler w e w' :
  body w = (Raise e, w') -> is_Exception e = false ->
  try_except_Exception body handler w = (Raise e, w').
Proof. intros Hb He. unfold try_except_Exception. rewrite Hb, He. reflexivity. Qed.

(** The loop of [build] collects one descriptor per identifier, in order. *)
Lemma for_in_nics (net_ids : list string) (nics : list (gmap string string))
    (w : world P) :
  for_in net_ids
    (fun net_id nics => ret (nics ++ [{[ "net-id" := net_id ]}])) nics w
  = (Return (nics ++ (nic <$> net_ids)), w).
Proof.
  revert nics. induction net_ids as [|net_id net_ids IH]; intros nics; simpl.
  - rewrite app_nil_r. reflexivity.
  - unfold bind, ret at 1. rewrite IH, <- app_assoc. reflexivity.
Qed.

End Run.

(** Unfolds the operations of the monad, to run a computation on a world. *)
Ltac unfold_monad :=
  unfold mbind, M_bind, bind, ret, raise, try_except_Exception,
    save_and_reraise_exception, LOG_exception, extern in *.

(** ** [_translate_amphora] *)

Section Translate.
Context {P : Type} {CONF : Config}.
Implicit Types (server : nova.Server) (w : world P).

Lemma visit_management server ip w :
  visit server networking_lb_network_name ip w = (subscripts server, w).
Proof.
  unfold visit, subscripts, dict_getitem, list_getitem.
  rewrite String.eqb_refl.
  destruct (nova.addresses server !! networking_lb_network_name) as [addrs|];
    [rewrite run_ret_bind|reflexivity].
  destruct (addrs !! 0%nat) as [first|]; [rewrite run_ret_bind|reflexivity].
  destruct (first !! "addr"); reflexivity.
Qed.

Lemma visit_other server name ip w :
  name ≠ networking_lb_network_name -> visit server name ip w = (Return ip, w).
Proof.
  intros Hne. unfold visit.
  destruct (String.eqb_spec name networking_lb_network_name); [done|reflexivity].
Qed.

(** A loop over names none of which is the management network changes
    nothing. *)
Lemma for_in_visit_others server names ip w :
  networking_lb_network_name ∉ names ->
  for_in names (visit server) ip w = (Return ip, w).
Proof.
  induction names as [|name names IH]; intros Hnot; simpl; [reflexivity|].
  apply not_elem_of_cons in Hnot as [Hne Hnot].
  unfold bind. rewrite visit_other by done. by apply IH.
Qed.

(** A loop over names without repetition meets the management network at
    most once, and the order of the names is of no account. *)
Lemma for_in_visit server names ip w :
  NoDup names ->
  for_in names (visit server) ip w =
  if decide (networking_lb_network_name ∈ names)
  then (subscripts server, w) else (Return ip, w).
Proof.
  intros Hnodup. revert ip.
  induction Hnodup as [|name names Hfresh Hnodup IH]; intros ip; cbn [for_in].
  - rewrite decide_False by apply not_elem_of_nil. reflexivity.
  - unfold bind.
    destruct (decide (name = networking_lb_network_name)) as [->|Hne].
    + rewrite visit_management, decide_True by (apply elem_of_cons; by left).
      destruct (subscripts server) as [ip'|e]; [|reflexivity].
      by apply for_in_visit_others.
    + rewrite visit_other, IH by done.
      destruct (decide (networking_lb_network_name ∈ names)) as [Hin|Hnot].
      * rewrite decide_True by (apply elem_of_cons; by right). reflexivity.
      * rewrite decide_False; [reflexivity|].
        intros [?|?]%elem_of_cons; congruence.
Qed.

Lemma elem_of_dict_keys {V} (d : gmap string V) (k : string) :
  k ∈ dict_keys d <-> is_Some (d !! k).
Proof.
  unfold dict_keys. rewrite list_elem_of_fmap. split.
  - intros ([k' v] & -> & Hin). apply elem_of_map_to_list in Hin. by exists v.
  - intros [v Hv]. exists (k, v). split; [reflexivity|].
    by apply elem_of_map_to_list.
Qed.

(** [_translate_amphora] leaves the world alone, and its outcome is decided
    by the subscript chain on the management network, if there is one. *)
Lemma translate_amphora_run (self : VirtualMachineManager.instance) server w :
  VirtualMachineManager._translate_amphora self (Some server) w =
  (match nova.addresses server !! networking_lb_network_name with
   | None =>
       Return {| models.compute_id := nova.id server;
                 models.status := nova.status server;
                 models.lb_network_ip := None |}
   | Some _ =>
       match subscripts server with
       | Return ip =>
           Return {| models.compute_id := nova.id server;
                     models.status := nova.status server;
                     models.lb_network_ip := ip |}
       | Raise e => Raise e
       end
   end, w).
Proof.
  unfold VirtualMachineManager._translate_amphora.
  change (@for_in P _ _ ?ks _ None) with (for_in ks (visit (P:=P) server) None).
  rewrite run_bind, for_in_visit by apply NoDup_fst_map_to_list.
  destruct (nova.addresses server !! networking_lb_network_name) as [addrs|] eqn:Hnet.
  - rewrite decide_True by (apply elem_of_dict_keys; eauto).
    destruct (subscripts server); reflexivity.
  - rewrite decide_False; [reflexivity|].
    rewrite elem_of_dict_keys, Hnet. by intros [? ?].
Qed.

Lemma translate_amphora_None (self : VirtualMachineManager.instance) w :
  VirtualMachineManager._translate_amphora self None w = (Raise AttributeError, w).
Proof. reflexivity. Qed.

(** The exceptions of the translation are ordinary ones. *)
Lemma translate_amphora_raises self response w e w' :
  VirtualMachineManager._translate_amphora self response w = (Raise e, w') ->
  is_Exception e = true /\ is_domain_error e = false /\ w' = w.
Proof.
  destruct response as [server|].
  - rewrite translate_amphora_run. unfold subscripts.
    destruct (nova.addresses server !! networking_lb_network_name) as [addrs|];
      [|intros [=]].
    destruct (addrs !! 0%nat) as [first|]; [|by intros [= <- <-]].
    destruct (first !! "addr"); [intros [=]|by intros [= <- <-]].
  - rewrite translate_amphora_None. by intros [= <- <-].
Qed.

(** C3.  For every fetched instance: when the network named as the
    management network exists and lists a first address, the translated
    amphora carries exactly that address; when no network has that name, the
    translation succeeds with no address ([None]).  In both cases the
    translation changes nothing in the world. *)
Theorem translate_amphora_network_address
    (self : VirtualMachineManager.instance) server w :
  (forall addr,
     management_address server = Some addr ->
     VirtualMachineManager._translate_amphora self (Some server) w =
     (Return {| models.compute_id := nova.id server;
                models.status := nova.status server;
                models.lb_network_ip := Some addr |}, w)) /\
  (nova.addresses server !! networking_lb_network_name = None ->
   VirtualMachineManager._translate_amphora self (Some server) w =
   (Return {| models.compute_id := nova.id server;
              models.status := nova.status server;
              models.lb_network_ip := None |}, w)).
Proof.
  split.
  - intros addr Haddr. rewrite translate_amphora_run.
    unfold management_address in Haddr. unfold subscripts.
    destruct (nova.addresses server !! networking_lb_network_name) as [addrs|];
      simpl in Haddr; [|done].
    destruct addrs as [|first addrs]; simpl in Haddr; [done|].
    simpl. rewrite Haddr. reflexivity.
  - intros Hnone. rewrite translate_amphora_run, Hnone. reflexivity.
Qed.

End Translate.

(** ** [build] *)

Section Build.
Context {P : Type} {prov : Provider P}.
Implicit Types (self : VirtualMachineManager.instance) (w : world P).

(** [build] on a list of network identifiers, by the answer of the provider
    to the one create request. *)
Lemma build_run_list self name flavor image key groups ids files data w :
  let request := create_request name flavor image key groups ids files data in
  let issued := CallCreate (VirtualMachineManager.manager self) request in
  VirtualMachineManager.build self name flavor image key groups (PyList ids)
    files data w =
  match servers_create (VirtualMachineManager.manager self) request (provider w) with
  | (Return amphora, p') => (Return (nova.id amphora), called issued true p' w)
  | (Raise e, p') =>
      if is_Exception e
      then (Raise ComputeBuildException, logged "Error building nova virtual machine." (called issued false p' w))
      else (Raise e, called issued false p' w)
  end.
Proof.
  intros request issued.
  unfold VirtualMachineManager.build, try_except_Exception.
  simpl py_iter. rewrite run_ret_bind, run_bind, for_in_nics, run_bind.
  unfold VirtualMachineManager.manager_create, extern. simpl app.
  fold (create_request name flavor image key groups ids files data).
  fold request. fold issued.
  destruct (servers_create _ request (provider w)) as [[amphora|e] p'];
    [reflexivity|].
  simpl is_Return. destruct (is_Exception e); reflexivity.
Qed.

(** [build] on a value that cannot be iterated. *)
Lemma build_run_not_iterable self name flavor image key groups nets files data w :
  iterable nets = false ->
  VirtualMachineManager.build self name flavor image key groups nets files data w
  = (Raise ComputeBuildException, logged "Error building nova virtual machine." w).
Proof. destruct nets; [reflexivity..|discriminate]. Qed.

(** C4.  For all valid build inputs (the network identifiers are a list):
    if the remote create call returns a server, [build] returns the
    identifier of that very server. *)
Theorem build_returns_remote_id
    self name flavor image key groups ids files data w amphora p' :
  servers_create (VirtualMachineManager.manager self)
    (create_request name flavor image key groups ids files data) (provider w)
  = (Return amphora, p') ->
  (VirtualMachineManager.build self name flavor image key groups (PyList ids)
     files data w).1 = Return (nova.id amphora).
Proof. intros Hcreate. rewrite build_run_list. simpl. by rewrite Hcreate. Qed.

(** C5.  For every successful [build]: the network identifiers were a list,
    and exactly one call left the process, a create call that returned, with
    the config drive switched on and one descriptor [{"net-id": id}] per
    network identifier, in the order of the list; the other arguments are
    passed on as they came. *)
Theorem build_issues_one_create
    self name flavor image key groups nets files data w v w' :
  VirtualMachineManager.build self name flavor image key groups nets files data w
  = (Return v, w') ->
  exists ids request,
    nets = PyList ids /\
    events w' = events w ++
      [{| ev_call := CallCreate (VirtualMachineManager.manager self) request;
          ev_ok := true |}] /\
    kw_config_drive request = true /\
    kw_nics request = (fun net_id => {[ "net-id" := net_id ]}) <$> ids /\
    length (kw_nics request) = length ids /\
    request = create_request name flavor image key groups ids files data.
Proof.
  intros Hbuild. destruct (iterable nets) eqn:Hiter.
  - destruct nets as [| |ids]; try discriminate.
    exists ids, (create_request name flavor image key groups ids files data).
    rewrite build_run_list in Hbuild. simpl in Hbuild.
    destruct (servers_create _ _ (provider w)) as [[amphora|e] p'].
    + injection Hbuild as <- <-. simpl. by rewrite length_fmap.
    + destruct (is_Exception e); discriminate.
  - rewrite build_run_not_iterable in Hbuild by done. discriminate.
Qed.

(** C9.  [build] on [None], or on any other value that cannot be iterated:
    the [TypeError] of the [for] statement is caught by the handler of the
    remote failures, so [build] raises [ComputeBuildException], after
    logging, and no call has left the process. *)
Theorem build_not_iterable_raises
    self name flavor image key groups nets files data w :
  iterable nets = false ->
  exists w',
    VirtualMachineManager.build self name flavor image key groups nets files
      data w = (Raise ComputeBuildException, w') /\
    events w' = events w /\
    provider w' = provider w /\
    log w' = log w ++ ["Error building nova virtual machine."].
Proof.
  intros Hiter. exists (logged "Error building nova virtual machine." w).
  by rewrite build_run_not_iterable.
Qed.

End Build.

(** ** [delete], [get_amphora] and [status] *)

Section Operations.
Context {P : Type} {prov : Provider P} {CONF : Config}.
Implicit Types (self : VirtualMachineManager.instance) (w : world P).

Lemma delete_run self amphora_id w :
  let issued := CallDelete (VirtualMachineManager.manager self) amphora_id in
  VirtualMachineManager.delete self amphora_id w =
  match servers_delete (VirtualMachineManager.manager self) amphora_id (provider w) with
  | (Return _, p') => (Return (), called issued true p' w)
  | (Raise e, p') =>
      if is_Exception e
      then (Raise ComputeDeleteException,
            logged "Error deleting nova virtual machine." (called issued false p' w))
      else (Raise e, called issued false p' w)
  end.
Proof.
  intros issued.
  unfold VirtualMachineManager.delete, try_except_Exception,
    VirtualMachineManager.manager_delete, extern.
  fold issued.
  destruct (servers_delete _ amphora_id (provider w)) as [[[]|e] p'];
    [reflexivity|].
  simpl is_Return. destruct (is_Exception e); reflexivity.
Qed.

Lemma get_amphora_run self amphora_id w :
  let issued := CallGet (VirtualMachineManager.manager self) amphora_id in
  VirtualMachineManager.get_amphora self amphora_id w =
  match servers_get (VirtualMachineManager.manager self) amphora_id (provider w) with
  | (Return response, p') =>
      VirtualMachineManager._translate_amphora self response
        (called issued true p' w)
  | (Raise e, p') =>
      if is_Exception e
      then (Raise ComputeGetException,
            logged "Error retrieving nova virtual machine." (called issued false p' w))
      else (Raise e, called issued false p' w)
  end.
Proof.
  intros issued.
  unfold VirtualMachineManager.get_amphora. rewrite run_bind.
  unfold try_except_Exception, VirtualMachineManager.manager_get, extern.
  fold issued.
  destruct (servers_get _ amphora_id (provider w)) as [[response|e] p'];
    [reflexivity|].
  simpl is_Return. destruct (is_Exception e); reflexivity.
Qed.

Lemma status_run self amphora_id w :
  VirtualMachineManager.status self amphora_id w =
  match VirtualMachineManager.get_amphora self amphora_id w with
  | (Return amphora, w') =>
      (Return (if String.eqb (models.status amphora) "ACTIVE"
               then AMPHORA_UP else AMPHORA_DOWN), w')
  | (Raise e, w') =>
      if is_Exception e
      then (Raise ComputeStatusException,
            logged "Error retrieving nova virtual machine status." w')
      else (Raise e, w')
  end.
Proof.
  unfold VirtualMachineManager.status. rewrite run_bind.
  unfold try_except_Exception. rewrite run_bind.
  destruct (VirtualMachineManager.get_amphora self amphora_id w) as [[amphora|e] w'].
  - simpl truthy. rewrite andb_true_l.
    destruct (String.eqb (models.status amphora) "ACTIVE"); reflexivity.
  - destruct (is_Exception e); reflexivity.
Qed.

(** Whatever [get_amphora] raises is an exception of the [Exception] family
    as soon as what the provider raises is one. *)
Lemma get_amphora_raises self amphora_id w e w' :
  VirtualMachineManager.get_amphora self amphora_id w = (Raise e, w') ->
  is_Exception e = true \/
  exists p', servers_get (VirtualMachineManager.manager self) amphora_id
               (provider w) = (Raise e, p').
Proof.
  rewrite get_amphora_run.
  destruct (servers_get _ amphora_id (provider w)) as [[response|e0] p'].
  - intros Htr. apply translate_amphora_raises in Htr as (? & _). by left.
  - destruct (is_Exception e0) eqn:He0.
    + intros [= <- _]. by left.
    + intros [= <- _]. right. by exists p'.
Qed.

End Operations.

(** ** Failures of the remote call *)

Section Failures.
Context {P : Type} {prov : Provider P} {CONF : Config}.
Implicit Types (self : VirtualMachineManager.instance) (w : world P).

(** A [try] whose handler logs and raises [own] lets no exception of the
    [Exception] family out but [own]. *)
Lemma try_raises_own {A} (body : M P A) (msg : string) (own : exn) w e w' :
  try_except_Exception body (fun _ => LOG_exception msg;; raise own) w
  = (Raise e, w') ->
  is_Exception e = true -> e = own.
Proof.
  unfold try_except_Exception.
  destruct (body w) as [[v|e0] w0]; [discriminate|].
  destruct (is_Exception e0) eqn:He0.
  - by intros [= <- _].
  - intros [= <- _]. congruence.
Qed.

Lemma build_raises_own self name flavor image key groups nets files data w e w' :
  VirtualMachineManager.build self name flavor image key groups nets files data w
  = (Raise e, w') ->
  is_Exception e = true -> e = ComputeBuildException.
Proof. apply try_raises_own. Qed.

Lemma delete_raises_own self amphora_id w e w' :
  VirtualMachineManager.delete self amphora_id w = (Raise e, w') ->
  is_Exception e = true -> e = ComputeDeleteException.
Proof. apply try_raises_own. Qed.

Lemma status_raises_own self amphora_id w e w' :
  VirtualMachineManager.status self amphora_id w = (Raise e, w') ->
  is_Exception e = true -> e = ComputeStatusException.
Proof.
  unfold VirtualMachineManager.status. rewrite run_bind.
  destruct (try_except_Exception _ _ w) as [[[v|]|e0] w0] eqn:Htry;
    [discriminate..|].
  intros [= <- _]. revert Htry. apply try_raises_own.
Qed.

(** C2.  When the remote call of an operation fails with an exception [e]
    (of the [Exception] family, which is what [except Exception] catches):
    [build] raises [ComputeBuildException], [delete] raises
    [ComputeDeleteException], [status] raises [ComputeStatusException] and
    [get_amphora] raises [ComputeGetException], whatever [e] is. *)
Theorem remote_failure_raises_domain_error self w e p' :
  is_Exception e = true ->
  (forall name flavor image key groups ids files data,
     servers_create (VirtualMachineManager.manager self)
       (create_request name flavor image key groups ids files data)
       (provider w) = (Raise e, p') ->
     (VirtualMachineManager.build self name flavor image key groups
        (PyList ids) files data w).1 = Raise ComputeBuildException) /\
  (forall amphora_id,
     servers_delete (VirtualMachineManager.manager self) amphora_id
       (provider w) = (Raise e, p') ->
     (VirtualMachineManager.delete self amphora_id w).1
     = Raise ComputeDeleteException) /\
  (forall amphora_id,
     servers_get (VirtualMachineManager.manager self) amphora_id
       (provider w) = (Raise e, p') ->
     (VirtualMachineManager.status self amphora_id w).1
     = Raise ComputeStatusException /\
     (VirtualMachineManager.get_amphora self amphora_id w).1
     = Raise ComputeGetException).
Proof.
  intros He. split; [|split].
  - intros * Hcreate. rewrite build_run_list. simpl. by rewrite Hcreate, He.
  - intros amphora_id Hdelete. rewrite delete_run. simpl.
    by rewrite Hdelete, He.
  - intros amphora_id Hget. split.
    + rewrite status_run, get_amphora_run. simpl. by rewrite Hget, He.
    + rewrite get_amphora_run. simpl. by rewrite Hget, He.
Qed.

(** C1, as the code has it.  When the provider returns an instance and its
    translation succeeds (it does not depend on the world it runs in, see
    [translate_amphora_run]), [status] returns UP if and only if the raw
    status of the instance is exactly ["ACTIVE"], and DOWN for every other
    raw status.  When the instance is absent on the remote side (the provider
    answers [None], or raises), and when the translation of a fetched
    instance raises, [status] raises [ComputeStatusException]: it does not
    return DOWN. *)
Theorem status_up_iff_active self amphora_id w :
  (forall server p' amphora,
     servers_get (VirtualMachineManager.manager self) amphora_id (provider w)
     = (Return (Some server), p') ->
     (VirtualMachineManager._translate_amphora self (Some server) w).1
     = Return amphora ->
     ((VirtualMachineManager.status self amphora_id w).1 = Return AMPHORA_UP
      <-> nova.status server = "ACTIVE") /\
     ((VirtualMachineManager.status self amphora_id w).1 = Return AMPHORA_DOWN
      <-> nova.status server ≠ "ACTIVE")) /\
  (forall p',
     servers_get (VirtualMachineManager.manager self) amphora_id (provider w)
     = (Return None, p') ->
     (VirtualMachineManager.status self amphora_id w).1
     = Raise ComputeStatusException) /\
  (forall e p',
     servers_get (VirtualMachineManager.manager self) amphora_id (provider w)
     = (Raise e, p') ->
     is_Exception e = true ->
     (VirtualMachineManager.status self amphora_id w).1
     = Raise ComputeStatusException) /\
  (forall server p' e,
     servers_get (VirtualMachineManager.manager self) amphora_id (provider w)
     = (Return (Some server), p') ->
     (VirtualMachineManager._translate_amphora self (Some server) w).1
     = Raise e ->
     (VirtualMachineManager.status self amphora_id w).1
     = Raise ComputeStatusException).
Proof.
  split; [|split; [|split]].
  - intros server p' amphora Hget Htr.
    rewrite status_run, get_amphora_run, Hget.
    rewrite translate_amphora_run in Htr |- *. simpl in Htr |- *.
    assert (models.status amphora = nova.status server) as Hst.
    { destruct (nova.addresses server !! networking_lb_network_name);
        [destruct (subscripts server)|]; by simplify_eq. }
    rewrite Htr. simpl. rewrite Hst.
    destruct (String.eqb_spec (nova.status server) "ACTIVE") as [Heq|Hne].
    + split; (split; [done|]); [done|]. by intros [].
    + split; split; try done.
  - intros p' Hget. rewrite status_run, get_amphora_run, Hget. reflexivity.
  - intros e p' Hget He.
    rewrite status_run, get_amphora_run, Hget, He. reflexivity.
  - intros server p' e Hget Htr.
    rewrite status_run, get_amphora_run, Hget.
    destruct (VirtualMachineManager._translate_amphora self (Some server) w)
      as [r w0] eqn:Hrun.
    simpl in Htr. subst r.
    pose proof Hrun as (He & _ & _)%translate_amphora_raises.
    rewrite translate_amphora_run in Hrun |- *.
    injection Hrun as Hrun _. rewrite Hrun. simpl. by rewrite He.
Qed.

End Failures.

(** ** [NovaKeystoneAuth]: the two cached constructions *)

Section Auth.
Context {P : Type} {prov : Provider P} {CONF : Config} {consts : Constants}.
Implicit Types (w : world P).

Lemma get_keystone_session_cached w s :
  NovaKeystoneAuth_keystone_session w = Some s ->
  NovaKeystoneAuth._get_keystone_session w = (Return (Some s), w).
Proof.
  intros Hs. unfold NovaKeystoneAuth._get_keystone_session.
  rewrite run_bind. unfold NovaKeystoneAuth.read_keystone_session at 1.
  rewrite Hs. simpl truthy. simpl negb. cbv iota.
  rewrite run_ret_bind. unfold NovaKeystoneAuth.read_keystone_session.
  by rewrite Hs.
Qed.

Lemma get_keystone_session_fresh w :
  NovaKeystoneAuth_keystone_session w = None ->
  NovaKeystoneAuth._get_keystone_session w =
  match Password_init configured_credentials (provider w) with
  | (Raise e, p1) =>
      let w1 := called (CallPassword configured_credentials) false p1 w in
      (Raise e,
       if is_Exception e then logged "Error creating Keystone session." w1
       else w1)
  | (Return _, p1) =>
      let w1 := called (CallPassword configured_credentials) true p1 w in
      match Session_init configured_session p1 with
      | (Raise e, p2) =>
          let w2 := called (CallSession configured_session) false p2 w1 in
          (Raise e,
           if is_Exception e then logged "Error creating Keystone session." w2
           else w2)
      | (Return _, p2) =>
          (Return (Some configured_session),
           with_keystone_session (Some configured_session) (called (CallSession configured_session) true p2 w1))
      end
  end.
Proof.
  intros Hs.
  unfold NovaKeystoneAuth._get_keystone_session,
    NovaKeystoneAuth.read_keystone_session,
    NovaKeystoneAuth.write_keystone_session,
    NovaKeystoneAuth.keystone_client_Password,
    NovaKeystoneAuth.session_Session.
  unfold_monad. rewrite Hs. simpl. fold configured_credentials.
  destruct (Password_init configured_credentials (provider w)) as [[[]|e] p1]; simpl.
  - fold configured_session. destruct (Session_init configured_session p1) as [[[]|e] p2]; simpl.
    + reflexivity.
    + destruct (is_Exception e); reflexivity.
  - destruct (is_Exception e); reflexivity.
Qed.

Lemma get_nova_client_cached region w c :
  NovaKeystoneAuth_nova_client w = Some c ->
  NovaKeystoneAuth.get_nova_client region w = (Return (Some c), w).
Proof.
  intros Hc. unfold NovaKeystoneAuth.get_nova_client.
  rewrite run_bind. unfold NovaKeystoneAuth.read_nova_client at 1.
  rewrite Hc. simpl truthy. simpl negb. cbv iota.
  rewrite run_ret_bind. unfold NovaKeystoneAuth.read_nova_client.
  by rewrite Hc.
Qed.

Lemma get_nova_client_fresh region w :
  NovaKeystoneAuth_nova_client w = None ->
  NovaKeystoneAuth.get_nova_client region w =
  match NovaKeystoneAuth._get_keystone_session w with
  | (Raise e, w1) =>
      (Raise e,
       if is_Exception e then logged "Error creating Nova client." w1 else w1)
  | (Return s, w1) =>
      let c := {| version := NOVA_2; session := s; region_name := region |} in
      match Client_init c (provider w1) with
      | (Raise e, p2) =>
          let w2 := called (CallClient c) false p2 w1 in
          (Raise e,
           if is_Exception e then logged "Error creating Nova client." w2
           else w2)
      | (Return _, p2) =>
          (Return (Some c),
           with_nova_client (Some c) (called (CallClient c) true p2 w1))
      end
  end.
Proof.
  intros Hc.
  unfold NovaKeystoneAuth.get_nova_client, NovaKeystoneAuth.read_nova_client,
    NovaKeystoneAuth.write_nova_client, NovaKeystoneAuth.nova_client_Client.
  unfold_monad. rewrite Hc. simpl.
  destruct (NovaKeystoneAuth._get_keystone_session w) as [[s|e] w1]; simpl.
  - destruct (Client_init _ (provider w1)) as [[[]|e] p2]; simpl.
    + reflexivity.
    + destruct (is_Exception e); reflexivity.
  - destruct (is_Exception e); reflexivity.
Qed.

(** C8.  When the construction of the session fails (the constructor of the
    credentials or of the session raises [e]) or the construction of the
    client fails (the client constructor raises [e], or the session could not
    be had), the function raises that same [e], not another exception in its
    place; and when [e] is of the [Exception] family, the message of the
    function has been added to the log before. *)
Theorem construction_failure_logged_and_reraised w e :
  (NovaKeystoneAuth_keystone_session w = None ->
   forall p1,
     (Password_init configured_credentials (provider w) = (Raise e, p1) \/
      exists p0, Password_init configured_credentials (provider w) = (Return (), p0) /\
                 Session_init configured_session p0 = (Raise e, p1)) ->
     exists w',
       NovaKeystoneAuth._get_keystone_session w = (Raise e, w') /\
       (is_Exception e = true ->
        log w' = log w ++ ["Error creating Keystone session."])) /\
  (NovaKeystoneAuth_nova_client w = None ->
   forall region s w1 p2,
     NovaKeystoneAuth._get_keystone_session w = (Return s, w1) ->
     Client_init {| version := NOVA_2; session := s; region_name := region |}
       (provider w1) = (Raise e, p2) ->
     exists w',
       NovaKeystoneAuth.get_nova_client region w = (Raise e, w') /\
       (is_Exception e = true ->
        log w' = log w1 ++ ["Error creating Nova client."])) /\
  (NovaKeystoneAuth_nova_client w = None ->
   forall region w1,
     NovaKeystoneAuth._get_keystone_session w = (Raise e, w1) ->
     exists w',
       NovaKeystoneAuth.get_nova_client region w = (Raise e, w') /\
       (is_Exception e = true ->
        log w' = log w1 ++ ["Error creating Nova client."])).
Proof.
  split; [|split].
  - intros Hs p1 Hfail. rewrite get_keystone_session_fresh by done.
    destruct Hfail as [Hpw|(p0 & Hpw & Hse)]; rewrite Hpw; [|rewrite Hse];
      (eexists; split; [reflexivity|]); intros ->; reflexivity.
  - intros Hc region s w1 p2 Hsession Hclient.
    rewrite get_nova_client_fresh, Hsession by done. simpl. rewrite Hclient.
    eexists; split; [reflexivity|]. intros ->. reflexivity.
  - intros Hc region w1 Hsession.
    rewrite get_nova_client_fresh, Hsession by done.
    eexists; split; [reflexivity|]. intros ->. reflexivity.
Qed.

End Auth.

(** ** Computations that leave the caches alone *)

Section Quiet.
Context {P : Type}.
Implicit Types (w : world P).

Lemma sessions_created_called c ok (p : P) w :
  sessions_created (called c ok p w) =
  (sessions_created w +
   if session_created {| ev_call := c; ev_ok := ok |} then 1 else 0)%nat.
Proof.
  unfold sessions_created, called. simpl events.
  rewrite List.filter_app, length_app. simpl.
  destruct (session_created _); reflexivity.
Qed.

Lemma quiet_ret {A} (a : A) : quiet (P:=P) (ret a).
Proof. intros w. reflexivity. Qed.

Lemma quiet_raise {A} (e : exn) : quiet (P:=P) (A:=A) (raise e).
Proof. intros w. reflexivity. Qed.

Lemma quiet_bind {A B} (m : M P A) (k : A -> M P B) :
  quiet m -> (forall a, quiet (k a)) -> quiet (m ≫= k).
Proof.
  intros Hm Hk w. rewrite run_bind. specialize (Hm w).
  destruct (m w) as [[a|e] w1]; simpl in *; [|done].
  by rewrite Hk.
Qed.

Lemma quiet_try {A} (body : M P A) (handler : exn -> M P A) :
  quiet body -> (forall e, quiet (handler e)) ->
  quiet (try_except_Exception body handler).
Proof.
  intros Hb Hh w. unfold try_except_Exception. specialize (Hb w).
  destruct (body w) as [[a|e] w1]; simpl in *; [done|].
  destruct (is_Exception e); [|done]. by rewrite Hh.
Qed.

Lemma quiet_LOG_exception (msg : string) : quiet (P:=P) (LOG_exception msg).
Proof. intros w. reflexivity. Qed.

Lemma quiet_extern {A} (c : call) (f : P -> result A * P) :
  (forall ok, session_created {| ev_call := c; ev_ok := ok |} = false) ->
  quiet (extern c f).
Proof.
  intros Hc w. unfold extern. destruct (f (provider w)) as [r p'].
  unfold auth_view. simpl snd.
  rewrite sessions_created_called, Hc, Nat.add_0_r. reflexivity.
Qed.

Lemma quiet_for_in {X A} (xs : list X) (body : X -> A -> M P A) (acc : A) :
  (forall x a, quiet (body x a)) -> quiet (for_in xs body acc).
Proof.
  intros Hbody. revert acc.
  induction xs as [|x xs IH]; intros acc; cbn [for_in].
  - apply quiet_ret.
  - apply (quiet_bind (body x acc)); [apply Hbody|apply IH].
Qed.

Lemma quiet_py_iter (v : pyval) : quiet (P:=P) (py_iter v).
Proof. destruct v; (apply quiet_ret || apply quiet_raise). Qed.

Lemma quiet_dict_getitem {V} (d : gmap string V) (k : string) :
  quiet (P:=P) (dict_getitem d k).
Proof.
  unfold dict_getitem. destruct (d !! k); (apply quiet_ret || apply quiet_raise).
Qed.

Lemma quiet_list_getitem {V} (l : list V) (i : nat) :
  quiet (P:=P) (list_getitem l i).
Proof.
  unfold list_getitem. destruct (l !! i); (apply quiet_ret || apply quiet_raise).
Qed.

End Quiet.

Create HintDb quiet.
#[local] Hint Resolve quiet_ret quiet_raise quiet_LOG_exception quiet_py_iter
  quiet_dict_getitem quiet_list_getitem : quiet.

(** Splits a goal [quiet m] along the structure of [m]. *)
Ltac quiet_step :=
  match goal with
  | |- quiet (_ ≫= _) => apply quiet_bind; [|intros ?]
  | |- quiet (try_except_Exception _ _) => apply quiet_try; [|intros ?]
  | |- quiet (for_in _ _ _) => apply quiet_for_in; intros ? ?
  | |- quiet (extern _ _) => apply quiet_extern; intros ?; reflexivity
  | |- quiet (if ?b then _ else _) => destruct b
  | |- quiet (match ?o with Some _ => _ | None => _ end) => destruct o
  | |- quiet _ => solve [auto with quiet]
  end.

Section QuietDriver.
Context {P : Type} {prov : Provider P} {CONF : Config}.
Implicit Types (self : VirtualMachineManager.instance) (w : world P).

Lemma quiet_build self name flavor image key groups nets files data :
  quiet (VirtualMachineManager.build self name flavor image key groups nets
           files data).
Proof.
  unfold VirtualMachineManager.build, VirtualMachineManager.manager_create.
  repeat quiet_step.
Qed.

Lemma quiet_delete self amphora_id :
  quiet (VirtualMachineManager.delete self amphora_id).
Proof.
  unfold VirtualMachineManager.delete, VirtualMachineManager.manager_delete.
  repeat quiet_step.
Qed.

Lemma quiet_translate_amphora self response :
  quiet (P:=P) (VirtualMachineManager._translate_amphora self response).
Proof.
  unfold VirtualMachineManager._translate_amphora. repeat quiet_step.
Qed.

Lemma quiet_get_amphora self amphora_id :
  quiet (VirtualMachineManager.get_amphora self amphora_id).
Proof.
  unfold VirtualMachineManager.get_amphora, VirtualMachineManager.manager_get.
  repeat quiet_step. apply quiet_translate_amphora.
Qed.

Lemma quiet_status self amphora_id :
  quiet (VirtualMachineManager.status self amphora_id).
Proof.
  unfold VirtualMachineManager.status.
  apply quiet_bind; [apply quiet_try; [|intros ?]|intros ?];
    repeat quiet_step.
  apply quiet_get_amphora.
Qed.

End QuietDriver.

(** ** The caches along the life of a process *)

Section Caches.
Context {P : Type} {prov : Provider P} {CONF : Config} {consts : Constants}.
Implicit Types (w : world P).

Lemma session_kept_refl w : session_kept w w.
Proof.
  unfold session_kept. destruct (NovaKeystoneAuth_keystone_session w); auto.
Qed.

Lemma session_kept_trans w1 w2 w3 :
  session_kept w1 w2 -> session_kept w2 w3 -> session_kept w1 w3.
Proof.
  unfold session_kept.
  destruct (NovaKeystoneAuth_keystone_session w1) as [s|].
  - intros [-> ->]. done.
  - intros [[-> ->]|[[s ->] ->]]; [done|].
    intros [-> ->]. right. eauto.
Qed.

Lemma caches_kept_refl w : caches_kept w w.
Proof. split; [apply session_kept_refl|by intros c]. Qed.

Lemma caches_kept_trans w1 w2 w3 :
  caches_kept w1 w2 -> caches_kept w2 w3 -> caches_kept w1 w3.
Proof.
  intros [Hs12 Hc12] [Hs23 Hc23]. split.
  - by apply session_kept_trans with w2.
  - intros c Hc. by apply Hc23, Hc12.
Qed.

(** Equal views, kept caches. *)
Lemma auth_view_caches_kept w w' : auth_view w' = auth_view w -> caches_kept w w'.
Proof.
  unfold auth_view. intros [= Hs Hc Hn]. split.
  - unfold session_kept. rewrite Hs, Hn.
    destruct (NovaKeystoneAuth_keystone_session w); auto.
  - intros c. by rewrite Hc.
Qed.

Lemma quiet_caches_kept {A} (m : M P A) w : quiet m -> caches_kept w (m w).2.
Proof. intros Hm. apply auth_view_caches_kept, Hm. Qed.

Lemma session_view_kept w w' :
  NovaKeystoneAuth_keystone_session w' = NovaKeystoneAuth_keystone_session w ->
  sessions_created w' = sessions_created w ->
  session_kept w w'.
Proof.
  intros Hs Hn. unfold session_kept. rewrite Hs, Hn.
  destruct (NovaKeystoneAuth_keystone_session w); auto.
Qed.

Lemma client_kept_None w w' :
  NovaKeystoneAuth_nova_client w = None -> client_kept w w'.
Proof. intros Hc c. by rewrite Hc. Qed.

(** [_get_keystone_session] never touches the client cache, keeps a cached
    session and creates at most one. *)
Lemma get_keystone_session_kept w :
  caches_kept w (NovaKeystoneAuth._get_keystone_session w).2 /\
  NovaKeystoneAuth_nova_client (NovaKeystoneAuth._get_keystone_session w).2
  = NovaKeystoneAuth_nova_client w.
Proof.
  destruct (NovaKeystoneAuth_keystone_session w) as [s|] eqn:Hs.
  - rewrite (get_keystone_session_cached w s) by done.
    split; [apply caches_kept_refl|done].
  - rewrite get_keystone_session_fresh by done.
    destruct (Password_init _ (provider w)) as [[[]|e] p1].
    + destruct (Session_init _ p1) as [[[]|e] p2].
      * split; [split|done]; [|by intros c].
        unfold session_kept. rewrite Hs. right. split; [by eexists|].
        simpl snd. change (sessions_created (with_keystone_session ?v ?w0))
          with (sessions_created w0).
        rewrite !sessions_created_called. simpl. lia.
      * split; [apply auth_view_caches_kept|];
          destruct (is_Exception e); try done; unfold auth_view; simpl;
          change (sessions_created (logged ?msg ?w0)) with (sessions_created w0);
          rewrite !sessions_created_called; simpl; by rewrite !Nat.add_0_r.
    + split; [apply auth_view_caches_kept|];
        destruct (is_Exception e); try done; unfold auth_view; simpl;
        change (sessions_created (logged ?msg ?w0)) with (sessions_created w0);
        rewrite !sessions_created_called; simpl; by rewrite !Nat.add_0_r.
Qed.

(** [get_nova_client] keeps a cached client, and does to the session what
    [_get_keystone_session] does. *)
Lemma get_nova_client_kept region w :
  caches_kept w (NovaKeystoneAuth.get_nova_client region w).2.
Proof.
  destruct (NovaKeystoneAuth_nova_client w) as [c|] eqn:Hc.
  - rewrite (get_nova_client_cached region w c) by done. apply caches_kept_refl.
  - split; [|by apply client_kept_None].
    rewrite get_nova_client_fresh by done.
    pose proof (get_keystone_session_kept w) as [[Hkept _] _].
    destruct (NovaKeystoneAuth._get_keystone_session w) as [[s|e] w1];
      simpl in Hkept; apply session_kept_trans with w1; try done.
    + cbv zeta. destruct (Client_init _ (provider w1)) as [[[]|e] p2];
        [|destruct (is_Exception e)];
        (apply session_view_kept; [reflexivity|]); simpl snd;
        try change (sessions_created (logged ?msg ?w0)) with (sessions_created w0);
        try change (sessions_created (with_nova_client ?v ?w0))
          with (sessions_created w0);
        rewrite sessions_created_called; simpl; by rewrite Nat.add_0_r.
    + destruct (is_Exception e); by apply session_view_kept.
Qed.

Lemma init_kept region w :
  caches_kept w (VirtualMachineManager.__init__ region w).2.
Proof.
  unfold VirtualMachineManager.__init__. rewrite run_bind.
  pose proof (get_nova_client_kept region w) as Hkept.
  destruct (NovaKeystoneAuth.get_nova_client region w) as [[[c|]|e] w1]; done.
Qed.

(** No step of a process drops a cache or creates a second session. *)
Lemma step_caches_kept w w' : step w w' -> caches_kept w w'.
Proof.
  intros Hstep. destruct Hstep.
  - apply get_keystone_session_kept.
  - apply get_nova_client_kept.
  - apply init_kept.
  - apply quiet_caches_kept, quiet_build.
  - apply quiet_caches_kept, quiet_delete.
  - apply quiet_caches_kept, quiet_status.
  - apply quiet_caches_kept, quiet_get_amphora.
  - apply quiet_caches_kept, quiet_translate_amphora.
  - by apply auth_view_caches_kept.
Qed.

Lemma reachable_caches_kept w w' : reachable w w' -> caches_kept w w'.
Proof.
  induction 1 as [w|w1 w2 w3 Hstep _ IH].
  - apply caches_kept_refl.
  - apply caches_kept_trans with w2; [by apply step_caches_kept|done].
Qed.

End Caches.

(** ** The cached client and the cached session *)

Section Cached.
Context {P : Type} {prov : Provider P} {CONF : Config} {consts : Constants}.
Implicit Types (w : world P).

(** A successful [get_nova_client] returns a client and leaves it cached. *)
Lemma get_nova_client_Return region w v w1 :
  NovaKeystoneAuth.get_nova_client region w = (Return v, w1) ->
  exists c,
    v = Some c /\ NovaKeystoneAuth_nova_client w1 = Some c /\
    (NovaKeystoneAuth_nova_client w = None -> region_name c = region).
Proof.
  destruct (NovaKeystoneAuth_nova_client w) as [c|] eqn:Hc.
  - rewrite (get_nova_client_cached region w c) by done.
    intros [= <- <-]. by exists c.
  - rewrite get_nova_client_fresh by done.
    destruct (NovaKeystoneAuth._get_keystone_session w) as [[s|e] w0];
      [|discriminate].
    cbv zeta. destruct (Client_init _ (provider w0)) as [[[]|e] p2];
      [|discriminate].
    intros [= <- <-]. by eexists.
Qed.

(** A successful [_get_keystone_session] returns a session and leaves it
    cached. *)
Lemma get_keystone_session_Return w v w1 :
  NovaKeystoneAuth._get_keystone_session w = (Return v, w1) ->
  exists s, v = Some s /\ NovaKeystoneAuth_keystone_session w1 = Some s.
Proof.
  destruct (NovaKeystoneAuth_keystone_session w) as [s|] eqn:Hs.
  - rewrite (get_keystone_session_cached w s) by done.
    intros [= <- <-]. by exists s.
  - rewrite get_keystone_session_fresh by done.
    destruct (Password_init _ (provider w)) as [[[]|e] p1]; [|discriminate].
    destruct (Session_init _ p1) as [[[]|e] p2]; [|discriminate].
    intros [= <- <-]. by eexists.
Qed.

(** C6.  After a successful call of [get_nova_client], whatever the process
    does next, every call of [get_nova_client] returns the client of that
    first call and changes nothing, whatever region it is given: the client
    built on the first call is bound to the region of the first call, and
    the region of a later call is not looked at. *)
Theorem nova_client_cached_regardless_of_region region1 region2 w v w1 w2 :
  NovaKeystoneAuth.get_nova_client region1 w = (Return v, w1) ->
  reachable w1 w2 ->
  exists c,
    v = Some c /\
    NovaKeystoneAuth.get_nova_client region2 w2 = (Return (Some c), w2) /\
    (NovaKeystoneAuth_nova_client w = None -> region_name c = region1).
Proof.
  intros (c & -> & Hc & Hregion)%get_nova_client_Return Hreach.
  apply reachable_caches_kept in Hreach as [_ Hkept].
  exists c. split; [done|]. split; [|done].
  by apply get_nova_client_cached, Hkept.
Qed.

(** C7.  After a successful call of [_get_keystone_session], whatever the
    process does next, every call of [_get_keystone_session] returns that
    same session and changes nothing in the world (no call leaves the
    process, so there is no credential exchange), and no further session has
    been created in between; and a process that starts with empty caches
    never creates more than one session. *)
Theorem keystone_session_cached_once :
  (forall w v w1 w2,
     NovaKeystoneAuth._get_keystone_session w = (Return v, w1) ->
     reachable w1 w2 ->
     exists s,
       v = Some s /\
       NovaKeystoneAuth._get_keystone_session w2 = (Return (Some s), w2) /\
       sessions_created w2 = sessions_created w1) /\
  (forall (p : P) w, reachable (fresh p) w -> (sessions_created w <= 1)%nat).
Proof.
  split.
  - intros w v w1 w2 (s & -> & Hs)%get_keystone_session_Return Hreach.
    apply reachable_caches_kept in Hreach as [Hkept _].
    unfold session_kept in Hkept. rewrite Hs in Hkept.
    destruct Hkept as [Hs2 Hn]. exists s. split; [done|].
    split; [by apply get_keystone_session_cached|done].
  - intros p w [Hkept _]%reachable_caches_kept.
    unfold session_kept in Hkept. simpl in Hkept.
    change (sessions_created (fresh p)) with 0%nat in Hkept.
    destruct Hkept as [[_ ->]|[_ ->]]; lia.
Qed.

End Cached.

(** ** [MemberResponse.from_data_model] *)

Section Member.
Context {data_model : Type} {base : member.BaseMemberType data_model}.

(** C10.  For every data model the inherited mapping maps to a member
    response: [from_data_model] returns a response whose name is a string,
    never [Unset] nor [None]: the empty string when the mapped name was
    [Unset], [None] or empty, the mapped name otherwise.  Every other field
    of the returned response is the one of the mapped response. *)
Theorem from_data_model_name_set (dm : data_model) (children : bool)
    (mapped : member.MemberResponse) :
  member.super_from_data_model dm children = Return mapped ->
  exists response name,
    member.from_data_model dm children = Return response /\
    member.name response = member.Value name /\
    member.name response <> member.Unset /\
    member.name response <> member.WsNone /\
    (member.truth (member.name mapped) = false -> name = "") /\
    (member.truth (member.name mapped) = true ->
     member.name mapped = member.Value name) /\
    response = member.set_name (member.Value name) mapped /\
    member.id response = member.id mapped /\
    member.operating_status response = member.operating_status mapped /\
    member.provisioning_status response = member.provisioning_status mapped /\
    member.admin_state_up response = member.admin_state_up mapped /\
    member.address response = member.address mapped /\
    member.protocol_port response = member.protocol_port mapped /\
    member.weight response = member.weight mapped /\
    member.subnet_id response = member.subnet_id mapped /\
    member.project_id response = member.project_id mapped /\
    member.created_at response = member.created_at mapped /\
    member.updated_at response = member.updated_at mapped.
Proof.
  intros Hsuper. unfold member.from_data_model. rewrite Hsuper.
  destruct mapped as [id name]. simpl.
  destruct name as [| |name]; simpl.
  - eexists _, "". by repeat split.
  - eexists _, "". by repeat split.
  - destruct (String.eqb_spec name "") as [->|Hne]; simpl.
    + eexists _, "". by repeat split.
    + eexists _, name. by repeat split.
Qed.

End Member.

(** ** The theorems at work on the example provider *)

(** Outside the two cases of C3: a management network that lists no address
    makes the translation raise, and [get_amphora], whose [try] block ends
    before the translation, lets that exception through as it is. *)
Example translate_amphora_no_address :
  (VirtualMachineManager._translate_amphora (CONF := example.conf)
     (example.driver None) (Some example.vm_bare) (fresh example.up)).1
  = Raise IndexError.
Proof. vm_compute. reflexivity. Qed.

Example get_amphora_no_address :
  (VirtualMachineManager.get_amphora (prov := example.cloud_provider)
     (CONF := example.conf) (example.driver None) "vm-bare"
     (fresh example.up)).1 = Raise IndexError.
Proof. vm_compute. reflexivity. Qed.

(** The scenario of the specification: a build with two networks, then the
    status of an active and of a building server. *)
Example build_then_status :
  (VirtualMachineManager.build (prov := example.cloud_provider)
     (example.driver None) "amphora-1" None (Some "img-1") None None
     (PyList ["net-a"; "net-b"]) None None (fresh example.up)).1
  = Return "vm-amphora-1" /\
  (VirtualMachineManager.status (prov := example.cloud_provider)
     (CONF := example.conf) (example.driver None) "vm-123"
     (fresh example.up)).1 = Return AMPHORA_UP /\
  (VirtualMachineManager.status (prov := example.cloud_provider)
     (CONF := example.conf) (example.driver (Some "RegionOne")) "vm-amphora-1"
     example.later).1 = Return AMPHORA_DOWN.
Proof. repeat split; vm_compute; reflexivity. Qed.

Lemma translate_amphora_network_address_witness :
  management_address (CONF := example.conf) example.vm_123
  = Some "192.168.1.9" /\
  VirtualMachineManager._translate_amphora (CONF := example.conf)
    (example.driver None) (Some example.vm_123) (fresh example.up) =
  (Return {| models.compute_id := "vm-123"; models.status := "ACTIVE";
             models.lb_network_ip := Some "192.168.1.9" |}, fresh example.up) /\
  nova.addresses example.vm_public !! "mgmt" = None /\
  VirtualMachineManager._translate_amphora (CONF := example.conf)
    (example.driver None) (Some example.vm_public) (fresh example.up) =
  (Return {| models.compute_id := "vm-public"; models.status := "ACTIVE";
             models.lb_network_ip := None |}, fresh example.up).
Proof.
  split; [vm_compute; reflexivity|]. split; [|split].
  - apply (translate_amphora_network_address (CONF := example.conf)
             (example.driver None) example.vm_123 (fresh example.up)).
    vm_compute. reflexivity.
  - vm_compute. reflexivity.
  - apply (translate_amphora_network_address (CONF := example.conf)
             (example.driver None) example.vm_public (fresh example.up)).
    vm_compute. reflexivity.
Defined.

Lemma build_returns_remote_id_witness :
  (VirtualMachineManager.build (prov := example.cloud_provider)
     (example.driver None) "amphora-1" None (Some "img-1") None None
     (PyList ["net-a"; "net-b"]) None None (fresh example.up)).1
  = Return "vm-amphora-1".
Proof.
  apply (build_returns_remote_id (prov := example.cloud_provider)
           (example.driver None) "amphora-1" None (Some "img-1") None None
           ["net-a"; "net-b"] None None (fresh example.up)
           (example.new_server
              (create_request "amphora-1" None (Some "img-1") None None
                 ["net-a"; "net-b"] None None))
           (servers_create (Provider := example.cloud_provider)
              (VirtualMachineManager.manager (example.driver None))
              (create_request "amphora-1" None (Some "img-1") None None
                 ["net-a"; "net-b"] None None) example.up).2).
  reflexivity.
Defined.

Lemma build_issues_one_create_witness :
  exists ids request,
    PyList ["net-a"; "net-b"] = PyList ids /\
    events example.later = events example.started ++
      [{| ev_call :=
            CallCreate
              (VirtualMachineManager.manager (example.driver (Some "RegionOne")))
              request;
          ev_ok := true |}] /\
    kw_config_drive request = true /\
    kw_nics request = (fun net_id => {[ "net-id" := net_id ]}) <$> ids /\
    length (kw_nics request) = length ids /\
    request = create_request "amphora-1" None (Some "img-1") None None ids
                None None.
Proof.
  apply (build_issues_one_create (prov := example.cloud_provider)
           (example.driver (Some "RegionOne")) "amphora-1" None (Some "img-1")
           None None (PyList ["net-a"; "net-b"]) None None example.started
           "vm-amphora-1" example.later).
  vm_compute. reflexivity.
Defined.

Lemma build_not_iterable_raises_witness :
  exists w',
    VirtualMachineManager.build (prov := example.cloud_provider)
      (example.driver None) "amphora_name" None None None None PyNone None
      None (fresh example.up) = (Raise ComputeBuildException, w') /\
    events w' = events (fresh example.up) /\
    provider w' = provider (fresh example.up) /\
    log w' = log (fresh example.up) ++ ["Error building nova virtual machine."].
Proof.
  apply (build_not_iterable_raises (prov := example.cloud_provider)
           (example.driver None) "amphora_name" None None None None PyNone
           None None (fresh example.up)).
  reflexivity.
Defined.

Lemma remote_failure_raises_domain_error_witness :
  is_Exception example.unreachable = true /\
  (VirtualMachineManager.build (prov := example.cloud_provider)
     (example.driver None) "amphora-1" None (Some "img-1") None None
     (PyList ["net-a"; "net-b"]) None None (fresh example.down)).1
  = Raise ComputeBuildException /\
  (VirtualMachineManager.delete (prov := example.cloud_provider)
     (example.driver None) "vm-123" (fresh example.down)).1
  = Raise ComputeDeleteException /\
  (VirtualMachineManager.status (prov := example.cloud_provider)
     (CONF := example.conf) (example.driver None) "vm-123"
     (fresh example.down)).1 = Raise ComputeStatusException /\
  (VirtualMachineManager.get_amphora (prov := example.cloud_provider)
     (CONF := example.conf) (example.driver None) "vm-123"
     (fresh example.down)).1 = Raise ComputeGetException.
Proof.
  destruct (remote_failure_raises_domain_error (prov := example.cloud_provider)
              (CONF := example.conf) (example.driver None)
              (fresh example.down) example.unreachable example.down eq_refl)
    as (Hbuild & Hdelete & Hget).
  split; [reflexivity|]. split; [|split].
  - apply Hbuild. reflexivity.
  - apply Hdelete. reflexivity.
  - apply Hget. reflexivity.
Defined.

Lemma status_up_iff_active_witness :
  (VirtualMachineManager.status (prov := example.cloud_provider)
     (CONF := example.conf) (example.driver None) "vm-123"
     (fresh example.up)).1 = Return AMPHORA_UP /\
  (VirtualMachineManager.status (prov := example.cloud_provider)
     (CONF := example.conf) (example.driver None) "vm-404"
     (fresh example.up)).1 = Raise ComputeStatusException /\
  (VirtualMachineManager.status (prov := example.quiet_provider)
     (CONF := example.conf) (example.driver None) "vm-404"
     (fresh example.up)).1 = Raise ComputeStatusException /\
  (VirtualMachineManager.status (prov := example.cloud_provider)
     (CONF := example.conf) (example.driver None) "vm-bare"
     (fresh example.up)).1 = Raise ComputeStatusException.
Proof.
  split; [|split; [|split]].
  - destruct (status_up_iff_active (prov := example.cloud_provider)
                (CONF := example.conf) (example.driver None) "vm-123"
                (fresh example.up)) as (Hfetched & _).
    apply (Hfetched example.vm_123 example.up
             {| models.compute_id := "vm-123"; models.status := "ACTIVE";
                models.lb_network_ip := Some "192.168.1.9" |});
      vm_compute; reflexivity.
  - destruct (status_up_iff_active (prov := example.cloud_provider)
                (CONF := example.conf) (example.driver None) "vm-404"
                (fresh example.up)) as (_ & _ & Hraised & _).
    apply (Hraised example.not_found example.up); reflexivity.
  - destruct (status_up_iff_active (prov := example.quiet_provider)
                (CONF := example.conf) (example.driver None) "vm-404"
                (fresh example.up)) as (_ & Hnone & _).
    apply (Hnone example.up). reflexivity.
  - destruct (status_up_iff_active (prov := example.cloud_provider)
                (CONF := example.conf) (example.driver None) "vm-bare"
                (fresh example.up)) as (_ & _ & _ & Htranslation).
    apply (Htranslation example.vm_bare example.up IndexError);
      vm_compute; reflexivity.
Defined.

(** C1 as the specification states it fails on the code.  An instance that
    is absent on the remote side, whether the provider raises (a [NotFound])
    or answers [None], makes [status] raise [ComputeStatusException], which
    is not DOWN; and a fetched instance whose raw status is ["ACTIVE"] but
    whose management network lists no address makes [status] raise too,
    which is not UP. *)
Lemma status_absent_instance_is_not_DOWN :
  (servers_get (Provider := example.cloud_provider)
     (VirtualMachineManager.manager (example.driver None)) "vm-404" example.up
   = (Raise example.not_found, example.up) /\
   (VirtualMachineManager.status (prov := example.cloud_provider)
      (CONF := example.conf) (example.driver None) "vm-404"
      (fresh example.up)).1 = Raise ComputeStatusException /\
   (VirtualMachineManager.status (prov := example.cloud_provider)
      (CONF := example.conf) (example.driver None) "vm-404"
      (fresh example.up)).1 <> Return AMPHORA_DOWN) /\
  (servers_get (Provider := example.quiet_provider)
     (VirtualMachineManager.manager (example.driver None)) "vm-404" example.up
   = (Return None, example.up) /\
   (VirtualMachineManager.status (prov := example.quiet_provider)
      (CONF := example.conf) (example.driver None) "vm-404"
      (fresh example.up)).1 = Raise ComputeStatusException /\
   (VirtualMachineManager.status (prov := example.quiet_provider)
      (CONF := example.conf) (example.driver None) "vm-404"
      (fresh example.up)).1 <> Return AMPHORA_DOWN) /\
  (servers_get (Provider := example.cloud_provider)
     (VirtualMachineManager.manager (example.driver None)) "vm-bare" example.up
   = (Return (Some example.vm_bare), example.up) /\
   nova.status example.vm_bare = "ACTIVE" /\
   (VirtualMachineManager.status (prov := example.cloud_provider)
      (CONF := example.conf) (example.driver None) "vm-bare"
      (fresh example.up)).1 = Raise ComputeStatusException /\
   (VirtualMachineManager.status (prov := example.cloud_provider)
      (CONF := example.conf) (example.driver None) "vm-bare"
      (fresh example.up)).1 <> Return AMPHORA_UP).
Proof.
  repeat split; try (vm_compute; reflexivity); vm_compute; discriminate.
Qed.

Lemma nova_client_cached_regardless_of_region_witness :
  exists c,
    Some (example.the_client (Some "RegionOne")) = Some c /\
    NovaKeystoneAuth.get_nova_client (prov := example.cloud_provider)
      (CONF := example.conf) (consts := example.consts) (Some "RegionTwo")
      example.later = (Return (Some c), example.later) /\
    (NovaKeystoneAuth_nova_client (fresh example.up) = None ->
     region_name c = Some "RegionOne").
Proof.
  apply (nova_client_cached_regardless_of_region
           (prov := example.cloud_provider) (CONF := example.conf)
           (consts := example.consts) (Some "RegionOne") (Some "RegionTwo")
           (fresh example.up) (Some (example.the_client (Some "RegionOne")))
           example.started example.later).
  - vm_compute. reflexivity.
  - apply rtc_once.
    exact (step_build (prov := example.cloud_provider) (CONF := example.conf)
             (consts := example.consts) example.started
             (example.driver (Some "RegionOne")) "amphora-1" None
             (Some "img-1") None None (PyList ["net-a"; "net-b"]) None None).
Defined.

Lemma keystone_session_cached_once_witness :
  (exists s,
     Some (configured_session (CONF := example.conf)) = Some s /\
     NovaKeystoneAuth._get_keystone_session (prov := example.cloud_provider)
       (CONF := example.conf) example.later = (Return (Some s), example.later) /\
     sessions_created example.later = sessions_created example.started) /\
  (sessions_created example.later <= 1)%nat.
Proof.
  destruct (keystone_session_cached_once (prov := example.cloud_provider)
              (CONF := example.conf) (consts := example.consts))
    as [Hcached Honce].
  assert (reachable (prov := example.cloud_provider) (CONF := example.conf)
            (consts := example.consts) example.started example.later) as Hlater.
  { apply rtc_once.
    exact (step_build (prov := example.cloud_provider) (CONF := example.conf)
             (consts := example.consts) example.started
             (example.driver (Some "RegionOne")) "amphora-1" None
             (Some "img-1") None None (PyList ["net-a"; "net-b"]) None None). }
  split.
  - apply (Hcached example.started
             (Some (configured_session (CONF := example.conf))) example.started
             example.later); [vm_compute; reflexivity|exact Hlater].
  - apply (Honce example.up example.later).
    apply rtc_l with example.started; [|exact Hlater].
    exact (step_get_nova_client (prov := example.cloud_provider)
             (CONF := example.conf) (consts := example.consts)
             (fresh example.up) (Some "RegionOne")).
Defined.

Lemma construction_failure_logged_and_reraised_witness :
  (exists w',
     NovaKeystoneAuth._get_keystone_session (prov := example.cloud_provider)
       (CONF := example.conf) (fresh example.down)
     = (Raise example.unreachable, w') /\
     (is_Exception example.unreachable = true ->
      log w' = log (fresh example.down) ++ ["Error creating Keystone session."])) /\
  (exists w',
     NovaKeystoneAuth.get_nova_client (prov := example.no_compute_provider)
       (CONF := example.conf) (consts := example.consts) (Some "RegionOne")
       (fresh example.up) = (Raise example.no_endpoint, w') /\
     (is_Exception example.no_endpoint = true ->
      log w' = [] ++ ["Error creating Nova client."])) /\
  (exists w',
     NovaKeystoneAuth.get_nova_client (prov := example.cloud_provider)
       (CONF := example.conf) (consts := example.consts) (Some "RegionOne")
       (fresh example.down) = (Raise example.unreachable, w') /\
     (is_Exception example.unreachable = true ->
      log w' = ["Error creating Keystone session."]
               ++ ["Error creating Nova client."])).
Proof.
  split; [|split].
  - destruct (construction_failure_logged_and_reraised
                (prov := example.cloud_provider) (CONF := example.conf)
                (consts := example.consts) (fresh example.down)
                example.unreachable) as (Hsession & _).
    apply (Hsession eq_refl example.down). left. reflexivity.
  - destruct (construction_failure_logged_and_reraised
                (prov := example.no_compute_provider) (CONF := example.conf)
                (consts := example.consts) (fresh example.up)
                example.no_endpoint) as (_ & Hclient & _).
    apply (Hclient eq_refl (Some "RegionOne")
             (Some (configured_session (CONF := example.conf)))
             (NovaKeystoneAuth._get_keystone_session
                (prov := example.no_compute_provider) (CONF := example.conf)
                (fresh example.up)).2 example.up);
      vm_compute; reflexivity.
  - destruct (construction_failure_logged_and_reraised
                (prov := example.cloud_provider) (CONF := example.conf)
                (consts := example.consts) (fresh example.down)
                example.unreachable) as (_ & _ & Hthrough).
    apply (Hthrough eq_refl (Some "RegionOne")
             (NovaKeystoneAuth._get_keystone_session
                (prov := example.cloud_provider) (CONF := example.conf)
                (fresh example.down)).2).
    vm_compute. reflexivity.
Defined.

Lemma from_data_model_name_set_witness :
  member.super_from_data_model (BaseMemberType := example.named_base) None false
  = Return (member.set_name member.WsNone example.blank) /\
  member.name (member.set_name member.WsNone example.blank) = member.WsNone /\
  exists response,
    member.from_data_model (BaseMemberType0 := example.named_base) None false
    = Return response /\
    member.name response = member.Value "" /\
    member.id response = member.id example.blank.
Proof.
  split; [reflexivity|]. split; [reflexivity|].
  destruct (from_data_model_name_set (base := example.named_base) None false
              (member.set_name member.WsNone example.blank) eq_refl)
    as (response & name & Hreturn & Hname & _ & _ & Hempty & _ & _ & Hid & _).
  exists response. split; [exact Hreturn|]. split; [|exact Hid].
  rewrite Hname. f_equal. apply Hempty. reflexivity.
Defined.

(* ===================================================================== *)
(** * Part III: further properties of the driver *)
(* ===================================================================== *)

(** ** More on [_translate_amphora] *)

Section TranslateMore.
Context {P : Type} {CONF : Config}.
Implicit Types (self : VirtualMachineManager.instance)
  (server : nova.Server) (w : world P).

(** The translation neither reads nor changes the world. *)
Lemma translate_amphora_pure self response w w' :
  VirtualMachineManager._translate_amphora self response w' =
  ((VirtualMachineManager._translate_amphora self response w).1, w').
Proof.
  destruct response as [server|].
  - by rewrite !translate_amphora_run.
  - by rewrite !translate_amphora_None.
Qed.

(** The subscript chain against the specification's words. *)
Lemma subscripts_outcome server addrs :
  nova.addresses server !! networking_lb_network_name = Some addrs ->
  match subscripts server with
  | Return ip => ip = management_address server /\ is_Some ip
  | Raise e =>
      management_address server = None /\
      ((addrs = [] /\ e = IndexError) \/
       (exists first rest,
          addrs = first :: rest /\ first !! "addr" = None /\ e = KeyError))
  end.
Proof.
  intros Hnet. unfold subscripts, management_address. rewrite Hnet. simpl.
  destruct addrs as [|first rest]; simpl.
  - split; [done|]. by left.
  - destruct (first !! "addr") as [addr|] eqn:Haddr.
    + split; [done|]. by eexists.
    + split; [done|]. right. by exists first, rest.
Qed.

(** Whenever the translation of a server succeeds, the amphora is the one
    of the specification's words. *)
Lemma translate_amphora_Return self server w a w' :
  VirtualMachineManager._translate_amphora self (Some server) w = (Return a, w') ->
  a = {| models.compute_id := nova.id server;
         models.status := nova.status server;
         models.lb_network_ip := management_address server |} /\ w' = w.
Proof.
  rewrite translate_amphora_run.
  destruct (nova.addresses server !! networking_lb_network_name) as [addrs|]
    eqn:Hnet.
  - pose proof (subscripts_outcome server addrs Hnet) as Hout.
    destruct (subscripts server) as [ip|e]; [|discriminate].
    destruct Hout as [-> _]. by intros [= <- <-].
  - intros [= <- <-]. split; [|done].
    unfold management_address. by rewrite Hnet.
Qed.

(** X1.  The translation of a server raises exactly when the management
    network is there and either lists no address ([IndexError]) or has a
    first address without an ['addr'] entry ([KeyError]). *)
Theorem translate_amphora_raises_iff self server w e :
  (VirtualMachineManager._translate_amphora self (Some server) w).1 = Raise e
  <->
  exists addrs,
    nova.addresses server !! networking_lb_network_name = Some addrs /\
    ((addrs = [] /\ e = IndexError) \/
     (exists first rest,
        addrs = first :: rest /\ first !! "addr" = None /\ e = KeyError)).
Proof.
  rewrite translate_amphora_run. simpl.
  destruct (nova.addresses server !! networking_lb_network_name) as [addrs|]
    eqn:Hnet.
  - pose proof (subscripts_outcome server addrs Hnet) as Hout.
    destruct (subscripts server) as [ip|e0].
    + split; [discriminate|].
      destruct Hout as [-> [addr Haddr]].
      intros (addrs' & [= <-] & Hcases). unfold management_address in Haddr.
      rewrite Hnet in Haddr. simpl in Haddr.
      destruct Hcases as [[-> _]|(first & rest & -> & Hnone & _)];
        simpl in Haddr; congruence.
    + destruct Hout as [_ Hcases]. split.
      * intros [= <-]. by exists addrs.
      * intros (addrs' & [= <-] & Hcases').
        destruct Hcases as [[-> ->]|(first & rest & -> & _ & ->)];
          destruct Hcases' as [[? ->]|(first' & rest' & ? & _ & ->)];
          congruence.
  - split; [discriminate|]. intros (addrs & [=] & _).
Qed.

(** X2.  Only the management network counts: two servers with the same
    identifier, the same raw status and the same entry (or none) for the
    management network translate alike, whatever other networks they are
    on. *)
Theorem translate_amphora_ignores_other_networks self server server' w :
  nova.id server = nova.id server' ->
  nova.status server = nova.status server' ->
  nova.addresses server !! networking_lb_network_name
  = nova.addresses server' !! networking_lb_network_name ->
  VirtualMachineManager._translate_amphora self (Some server) w =
  VirtualMachineManager._translate_amphora self (Some server') w.
Proof.
  intros Hid Hstatus Hnet. rewrite !translate_amphora_run.
  unfold subscripts. rewrite Hid, Hstatus, Hnet. reflexivity.
Qed.

Lemma translate_in_order_dict_keys self server :
  VirtualMachineManager._translate_amphora (P := P) self (Some server) =
  translate_in_order (dict_keys (nova.addresses server)) server.
Proof. reflexivity. Qed.

(** X3.  The order in which the loop visits the networks is of no account:
    visiting the names of the address dict, each once, in any order gives
    the outcome of [_translate_amphora]. *)
Theorem translate_amphora_any_order self server (names : list string) w :
  NoDup names ->
  (forall name, name ∈ names <-> is_Some (nova.addresses server !! name)) ->
  translate_in_order names server w =
  VirtualMachineManager._translate_amphora self (Some server) w.
Proof.
  intros Hnodup Hnames. rewrite translate_in_order_dict_keys.
  unfold translate_in_order.
  change (@for_in P _ _ ?ks _ None) with (for_in ks (visit (P:=P) server) None).
  rewrite !run_bind, !for_in_visit by (done || apply NoDup_fst_map_to_list).
  destruct (decide (networking_lb_network_name ∈ names)) as [Hin|Hnot].
  - rewrite decide_True; [done|]. by apply elem_of_dict_keys, Hnames.
  - rewrite decide_False; [done|]. by rewrite elem_of_dict_keys, <- Hnames.
Qed.

End TranslateMore.

(** ** More on [build], [delete], [get_amphora] and [status] *)

Section OperationsMore.
Context {P : Type} {prov : Provider P} {CONF : Config}.
Implicit Types (self : VirtualMachineManager.instance) (w : world P).

(** [get_amphora] by the answer of the provider, the translation taken out
    of the world. *)
Lemma get_amphora_outcome self amphora_id w :
  let issued := CallGet (VirtualMachineManager.manager self) amphora_id in
  VirtualMachineManager.get_amphora self amphora_id w =
  match servers_get (VirtualMachineManager.manager self) amphora_id (provider w) with
  | (Return response, p') =>
      ((VirtualMachineManager._translate_amphora self response w).1,
       called issued true p' w)
  | (Raise e, p') =>
      if is_Exception e
      then (Raise ComputeGetException,
            logged "Error retrieving nova virtual machine." (called issued false p' w))
      else (Raise e, called issued false p' w)
  end.
Proof.
  intros issued. rewrite get_amphora_run. fold issued.
  destruct (servers_get _ amphora_id (provider w)) as [[response|e] p'];
    [|done].
  apply translate_amphora_pure.
Qed.

(** X4.  A [get_amphora] that returns has fetched a server, and the amphora
    carries the identifier and the raw status of that server and, as its
    address, the first address of the management network if there is such a
    network, [None] otherwise; one get call has left the process and
    nothing was logged. *)
Theorem get_amphora_returns_translation self amphora_id w a w' :
  VirtualMachineManager.get_amphora self amphora_id w = (Return a, w') ->
  exists server p',
    servers_get (VirtualMachineManager.manager self) amphora_id (provider w)
    = (Return (Some server), p') /\
    a = {| models.compute_id := nova.id server;
           models.status := nova.status server;
           models.lb_network_ip := management_address server |} /\
    w' = called (CallGet (VirtualMachineManager.manager self) amphora_id)
           true p' w.
Proof.
  rewrite get_amphora_outcome.
  destruct (servers_get _ amphora_id (provider w)) as [[[server|]|e] p'].
  - destruct (VirtualMachineManager._translate_amphora self (Some server) w)
      as [r w0] eqn:Htr.
    simpl. intros [= -> <-].
    apply translate_amphora_Return in Htr as [-> _]. by exists server, p'.
  - rewrite translate_amphora_None. discriminate.
  - destruct (is_Exception e); discriminate.
Qed.

(** X5.  The translation is not under the [try] of [get_amphora]: when the
    provider returns a response whose translation raises, [get_amphora]
    raises that very exception, which is none of the domain errors, and
    logs nothing. *)
Theorem get_amphora_translation_error_raw self amphora_id w response p' e :
  servers_get (VirtualMachineManager.manager self) amphora_id (provider w)
  = (Return response, p') ->
  (VirtualMachineManager._translate_amphora self response w).1 = Raise e ->
  VirtualMachineManager.get_amphora self amphora_id w =
  (Raise e,
   called (CallGet (VirtualMachineManager.manager self) amphora_id) true p' w) /\
  is_domain_error e = false /\
  log (VirtualMachineManager.get_amphora self amphora_id w).2 = log w.
Proof.
  intros Hget Htr. rewrite get_amphora_outcome, Hget, Htr.
  split; [done|]. split; [|done].
  destruct (VirtualMachineManager._translate_amphora self response w)
    as [r w0] eqn:Hrun.
  simpl in Htr. subst r. by apply translate_amphora_raises in Hrun as (_ & ? & _).
Qed.

(** X6.  No operation tries twice.  [delete], [get_amphora] and [status]
    issue exactly one call, of their own kind and for the identifier they
    were given, whatever its outcome; [build] issues one create call, or
    none when the network identifiers cannot be iterated. *)
Theorem operations_issue_one_call self w :
  (forall amphora_id,
     events (VirtualMachineManager.delete self amphora_id w).2 =
     events w ++
       [{| ev_call := CallDelete (VirtualMachineManager.manager self) amphora_id;
           ev_ok := is_Return
                      (servers_delete (VirtualMachineManager.manager self)
                         amphora_id (provider w)).1 |}]) /\
  (forall amphora_id,
     events (VirtualMachineManager.get_amphora self amphora_id w).2 =
     events w ++
       [{| ev_call := CallGet (VirtualMachineManager.manager self) amphora_id;
           ev_ok := is_Return
                      (servers_get (VirtualMachineManager.manager self)
                         amphora_id (provider w)).1 |}]) /\
  (forall amphora_id,
     events (VirtualMachineManager.status self amphora_id w).2 =
     events w ++
       [{| ev_call := CallGet (VirtualMachineManager.manager self) amphora_id;
           ev_ok := is_Return
                      (servers_get (VirtualMachineManager.manager self)
                         amphora_id (provider w)).1 |}]) /\
  (forall name flavor image key groups nets files data,
     events (VirtualMachineManager.build self name flavor image key groups
               nets files data w).2 =
     match nets with
     | PyList ids =>
         let request :=
           create_request name flavor image key groups ids files data in
         events w ++
           [{| ev_call := CallCreate (VirtualMachineManager.manager self) request;
               ev_ok := is_Return
                          (servers_create (VirtualMachineManager.manager self)
                             request (provider w)).1 |}]
     | _ => events w
     end).
Proof.
  assert (forall amphora_id,
     events (VirtualMachineManager.get_amphora self amphora_id w).2 =
     events w ++
       [{| ev_call := CallGet (VirtualMachineManager.manager self) amphora_id;
           ev_ok := is_Return
                      (servers_get (VirtualMachineManager.manager self)
                         amphora_id (provider w)).1 |}]) as Hget.
  { intros amphora_id. rewrite get_amphora_outcome.
    destruct (servers_get _ amphora_id (provider w)) as [[response|e] p'];
      [done|].
    by destruct (is_Exception e). }
  split; [|split; [done|split]].
  - intros amphora_id. rewrite delete_run.
    destruct (servers_delete _ amphora_id (provider w)) as [[[]|e] p']; [done|].
    by destruct (is_Exception e).
  - intros amphora_id. rewrite status_run, <- Hget.
    destruct (VirtualMachineManager.get_amphora self amphora_id w)
      as [[a|e] w1]; [done|].
    by destruct (is_Exception e).
  - intros name flavor image key groups nets files data.
    destruct nets as [| |ids];
      [by rewrite build_run_not_iterable..|].
    rewrite build_run_list. cbv zeta.
    destruct (servers_create _ _ (provider w)) as [[amphora|e] p']; [done|].
    by destruct (is_Exception e).
Qed.

(** X7.  [build], [delete] and [get_amphora] log exactly when they raise
    their own error, and then one message, their own; otherwise the log is
    as it was. *)
Theorem operations_log_on_own_error self w :
  (forall name flavor image key groups nets files data,
     let run := VirtualMachineManager.build self name flavor image key groups
                  nets files data w in
     (run.1 = Raise ComputeBuildException /\
      log run.2 = log w ++ ["Error building nova virtual machine."]) \/
     (run.1 <> Raise ComputeBuildException /\ log run.2 = log w)) /\
  (forall amphora_id,
     let run := VirtualMachineManager.delete self amphora_id w in
     (run.1 = Raise ComputeDeleteException /\
      log run.2 = log w ++ ["Error deleting nova virtual machine."]) \/
     (run.1 <> Raise ComputeDeleteException /\ log run.2 = log w)) /\
  (forall amphora_id,
     let run := VirtualMachineManager.get_amphora self amphora_id w in
     (run.1 = Raise ComputeGetException /\
      log run.2 = log w ++ ["Error retrieving nova virtual machine."]) \/
     (run.1 <> Raise ComputeGetException /\ log run.2 = log w)).
Proof.
  split; [|split].
  - intros name flavor image key groups nets files data run. subst run.
    destruct nets as [| |ids];
      [rewrite build_run_not_iterable by done; by left..|].
    rewrite build_run_list. cbv zeta.
    destruct (servers_create _ _ (provider w)) as [[amphora|e] p'];
      [by right|].
    destruct (is_Exception e) eqn:He; [by left|].
    right. split; [|done]. simpl. intros [= ->]. discriminate.
  - intros amphora_id run. subst run. rewrite delete_run.
    destruct (servers_delete _ amphora_id (provider w)) as [[[]|e] p'];
      [by right|].
    destruct (is_Exception e) eqn:He; [by left|].
    right. split; [|done]. simpl. intros [= ->]. discriminate.
  - intros amphora_id run. subst run. rewrite get_amphora_outcome.
    destruct (servers_get _ amphora_id (provider w)) as [[response|e] p'].
    + right. split; [|done]. simpl.
      destruct (VirtualMachineManager._translate_amphora self response w)
        as [r w0] eqn:Htr.
      simpl. intros ->.
      by apply translate_amphora_raises in Htr as (_ & ? & _).
    + destruct (is_Exception e) eqn:He; [by left|].
      right. split; [|done]. simpl. intros [= ->]. discriminate.
Qed.

(** X8.  What [status] logs.  When the remote get raises (an exception of
    the [Exception] family), the log gains the message of [get_amphora] and
    then the message of [status]; when the provider returns a response whose
    translation raises, it gains the message of [status] alone; when
    [status] returns, it gains nothing. *)
Theorem status_log self amphora_id w :
  (forall e p',
     servers_get (VirtualMachineManager.manager self) amphora_id (provider w)
     = (Raise e, p') ->
     is_Exception e = true ->
     log (VirtualMachineManager.status self amphora_id w).2 =
     log w ++ ["Error retrieving nova virtual machine.";
               "Error retrieving nova virtual machine status."]) /\
  (forall response p' e,
     servers_get (VirtualMachineManager.manager self) amphora_id (provider w)
     = (Return response, p') ->
     (VirtualMachineManager._translate_amphora self response w).1 = Raise e ->
     log (VirtualMachineManager.status self amphora_id w).2 =
     log w ++ ["Error retrieving nova virtual machine status."]) /\
  (forall v,
     (VirtualMachineManager.status self amphora_id w).1 = Return v ->
     log (VirtualMachineManager.status self amphora_id w).2 = log w).
Proof.
  split; [|split].
  - intros e p' Hget He. rewrite status_run, get_amphora_outcome, Hget, He.
    simpl. by rewrite <- app_assoc.
  - intros response p' e Hget Htr.
    rewrite status_run, get_amphora_outcome, Hget, Htr.
    destruct (VirtualMachineManager._translate_amphora self response w)
      as [r w0] eqn:Hrun.
    simpl in Htr. subst r.
    apply translate_amphora_raises in Hrun as (He & _). simpl. by rewrite He.
  - intros v. rewrite status_run, get_amphora_outcome.
    destruct (servers_get _ amphora_id (provider w)) as [[response|e] p'].
    + destruct (VirtualMachineManager._translate_amphora self response w)
        as [[a|e] w0] eqn:Hrun; [done|].
      apply translate_amphora_raises in Hrun as (He & _). simpl.
      rewrite He. discriminate.
    + destruct (is_Exception e) eqn:He; simpl; [discriminate|].
      rewrite He. discriminate.
Qed.

(** [get_amphora] looks at nothing in the world but the provider. *)
Lemma get_amphora_provider_only self amphora_id w w' :
  provider w = provider w' ->
  (VirtualMachineManager.get_amphora self amphora_id w).1 =
  (VirtualMachineManager.get_amphora self amphora_id w').1 /\
  provider (VirtualMachineManager.get_amphora self amphora_id w).2 =
  provider (VirtualMachineManager.get_amphora self amphora_id w').2.
Proof.
  intros Hp. rewrite !get_amphora_outcome, <- Hp.
  destruct (servers_get _ amphora_id (provider w)) as [[response|e] p'].
  - by rewrite (translate_amphora_pure self response w w').
  - by destruct (is_Exception e).
Qed.

(** X9.  The answers of [get_amphora] and [status] depend on the provider
    alone, not on the log, the trace or the caches; so when a get leaves the
    provider as it was, asking again gives the same answer. *)
Theorem get_amphora_and_status_repeatable self amphora_id w :
  (forall w',
     provider w = provider w' ->
     (VirtualMachineManager.get_amphora self amphora_id w).1 =
     (VirtualMachineManager.get_amphora self amphora_id w').1 /\
     (VirtualMachineManager.status self amphora_id w).1 =
     (VirtualMachineManager.status self amphora_id w').1) /\
  ((servers_get (VirtualMachineManager.manager self) amphora_id (provider w)).2
   = provider w ->
   (VirtualMachineManager.get_amphora self amphora_id
      (VirtualMachineManager.get_amphora self amphora_id w).2).1 =
   (VirtualMachineManager.get_amphora self amphora_id w).1 /\
   (VirtualMachineManager.status self amphora_id
      (VirtualMachineManager.status self amphora_id w).2).1 =
   (VirtualMachineManager.status self amphora_id w).1).
Proof.
  assert (forall w1 w2, provider w1 = provider w2 ->
            (VirtualMachineManager.status self amphora_id w1).1 =
            (VirtualMachineManager.status self amphora_id w2).1) as Hstatus.
  { intros w1 w2 Hp. rewrite !status_run.
    pose proof (get_amphora_provider_only self amphora_id w1 w2 Hp) as [Hr _].
    destruct (VirtualMachineManager.get_amphora self amphora_id w1) as [r1 w1'].
    destruct (VirtualMachineManager.get_amphora self amphora_id w2) as [r2 w2'].
    simpl in Hr. subst r2. destruct r1 as [a|e]; [done|].
    by destruct (is_Exception e). }
  assert ((servers_get (VirtualMachineManager.manager self) amphora_id
             (provider w)).2 = provider w ->
          provider (VirtualMachineManager.get_amphora self amphora_id w).2
          = provider w) as Hsame.
  { rewrite get_amphora_outcome.
    destruct (servers_get _ amphora_id (provider w)) as [[response|e] p'];
      [done|].
    by destruct (is_Exception e). }
  split.
  - intros w' Hp. split; [by apply get_amphora_provider_only|by apply Hstatus].
  - intros Hp. split.
    + by apply get_amphora_provider_only, Hsame.
    + apply Hstatus. rewrite status_run.
      specialize (Hsame Hp).
      destruct (VirtualMachineManager.get_amphora self amphora_id w)
        as [[a|e] w1]; [done|].
      by destruct (is_Exception e).
Qed.

End OperationsMore.

(** ** More on [NovaKeystoneAuth] and [__init__] *)

Section AuthMore.
Context {P : Type} {prov : Provider P} {CONF : Config} {consts : Constants}.
Implicit Types (self : VirtualMachineManager.instance) (w : world P).

(** A [_get_keystone_session] that raises has cached nothing. *)
Lemma get_keystone_session_Raise w e w1 :
  NovaKeystoneAuth._get_keystone_session w = (Raise e, w1) ->
  NovaKeystoneAuth_keystone_session w = None /\
  NovaKeystoneAuth_keystone_session w1 = None /\
  NovaKeystoneAuth_nova_client w1 = NovaKeystoneAuth_nova_client w.
Proof.
  destruct (NovaKeystoneAuth_keystone_session w) as [s|] eqn:Hs.
  - rewrite (get_keystone_session_cached w s) by done. discriminate.
  - rewrite get_keystone_session_fresh by done.
    destruct (Password_init _ (provider w)) as [[[]|e1] p1].
    + destruct (Session_init _ p1) as [[[]|e2] p2]; [discriminate|].
      intros [= _ <-]. by destruct (is_Exception e2).
    + intros [= _ <-]. by destruct (is_Exception e1).
Qed.

(** X10.  A failure is not cached.  When [_get_keystone_session] raises,
    the session cache is still empty and the client cache is as it was; and
    called again once the provider lets both constructors return, it
    returns the configured session. *)
Theorem failed_session_not_cached w e w1 :
  NovaKeystoneAuth._get_keystone_session w = (Raise e, w1) ->
  NovaKeystoneAuth_keystone_session w1 = None /\
  NovaKeystoneAuth_nova_client w1 = NovaKeystoneAuth_nova_client w /\
  (forall p p1 p2,
     Password_init configured_credentials p = (Return (), p1) ->
     Session_init configured_session p1 = (Return (), p2) ->
     (NovaKeystoneAuth._get_keystone_session (with_provider p w1)).1
     = Return (Some configured_session)).
Proof.
  intros (_ & Hs1 & Hc1)%get_keystone_session_Raise.
  split; [done|]. split; [done|].
  intros p p1 p2 Hpassword Hsession.
  rewrite get_keystone_session_fresh by done. simpl provider.
  by rewrite Hpassword, Hsession.
Qed.

(** X11.  When [get_nova_client] raises, the client cache is still empty;
    and called again with a session in the cache, once the provider lets the
    client constructor return, it returns a client on that session for the
    region of this later call. *)
Theorem failed_client_not_cached region w e w1 :
  NovaKeystoneAuth.get_nova_client region w = (Raise e, w1) ->
  NovaKeystoneAuth_nova_client w1 = None /\
  (forall region' s p p2,
     NovaKeystoneAuth_keystone_session w1 = Some s ->
     Client_init {| version := NOVA_2; session := Some s;
                    region_name := region' |} p = (Return (), p2) ->
     (NovaKeystoneAuth.get_nova_client region' (with_provider p w1)).1
     = Return (Some {| version := NOVA_2; session := Some s;
                       region_name := region' |})).
Proof.
  intros Hraise.
  assert (NovaKeystoneAuth_nova_client w1 = None) as Hc1.
  { destruct (NovaKeystoneAuth_nova_client w) as [c|] eqn:Hc.
    - rewrite (get_nova_client_cached region w c) in Hraise by done.
      discriminate.
    - rewrite get_nova_client_fresh in Hraise by done.
      pose proof (get_keystone_session_kept w) as [_ Hnc].
      destruct (NovaKeystoneAuth._get_keystone_session w) as [[s|e0] w0];
        simpl in Hnc.
      + cbv zeta in Hraise.
        destruct (Client_init _ (provider w0)) as [[[]|e1] p2];
          [discriminate|].
        injection Hraise as _ <-. destruct (is_Exception e1); simpl; congruence.
      + injection Hraise as _ <-. destruct (is_Exception e0); simpl; congruence. }
  split; [done|].
  intros region' s p p2 Hs Hclient.
  rewrite get_nova_client_fresh by done.
  rewrite (get_keystone_session_cached (with_provider p w1) s) by done.
  cbv zeta. simpl provider. by rewrite Hclient.
Qed.

(** X12.  A session that cannot be had is reported twice by
    [get_nova_client]: with both caches empty, when the constructor of the
    credentials raises [e] (of the [Exception] family), [get_nova_client]
    raises [e]; one call, the failed one, has left the process; the log has
    gained the message of [_get_keystone_session] and then the message of
    [get_nova_client]; and the caches are still empty. *)
Theorem session_failure_through_get_nova_client region w e p1 :
  NovaKeystoneAuth_nova_client w = None ->
  NovaKeystoneAuth_keystone_session w = None ->
  Password_init configured_credentials (provider w) = (Raise e, p1) ->
  is_Exception e = true ->
  exists w',
    NovaKeystoneAuth.get_nova_client region w = (Raise e, w') /\
    events w' = events w ++
      [{| ev_call := CallPassword configured_credentials; ev_ok := false |}] /\
    log w' = log w ++ ["Error creating Keystone session.";
                       "Error creating Nova client."] /\
    NovaKeystoneAuth_keystone_session w' = None /\
    NovaKeystoneAuth_nova_client w' = None.
Proof.
  intros Hc Hs Hpassword He.
  rewrite get_nova_client_fresh, get_keystone_session_fresh by done.
  rewrite Hpassword. cbv zeta. rewrite He.
  eexists. split; [reflexivity|]. rewrite He. simpl. by rewrite <- app_assoc.
Qed.

(** The world after [__init__] is the world after [get_nova_client]. *)
Lemma init_run region w :
  VirtualMachineManager.__init__ region w =
  match NovaKeystoneAuth.get_nova_client region w with
  | (Return (Some c), w') =>
      (Return {| VirtualMachineManager._nova_client := c;
                 VirtualMachineManager.manager := servers c |}, w')
  | (Return None, w') => (Raise AttributeError, w')
  | (Raise e, w') => (Raise e, w')
  end.
Proof.
  unfold VirtualMachineManager.__init__. rewrite run_bind.
  by destruct (NovaKeystoneAuth.get_nova_client region w) as [[[c|]|e] w'].
Qed.

(** X13.  [__init__] fails only as [get_nova_client] fails: the exception
    it raises is the one [get_nova_client] raised, in the same world; and a
    driver it returns holds the client [get_nova_client] returned, now
    cached, and the server manager of that client. *)
Theorem init_outcome region w :
  (forall e w',
     VirtualMachineManager.__init__ region w = (Raise e, w') ->
     NovaKeystoneAuth.get_nova_client region w = (Raise e, w')) /\
  (forall self w',
     VirtualMachineManager.__init__ region w = (Return self, w') ->
     NovaKeystoneAuth.get_nova_client region w
     = (Return (Some (VirtualMachineManager._nova_client self)), w') /\
     VirtualMachineManager.manager self
     = servers (VirtualMachineManager._nova_client self) /\
     NovaKeystoneAuth_nova_client w'
     = Some (VirtualMachineManager._nova_client self)).
Proof.
  split.
  - intros e w'. rewrite init_run.
    destruct (NovaKeystoneAuth.get_nova_client region w) as [[v|e0] w0] eqn:Hget.
    + apply get_nova_client_Return in Hget as (c & -> & _). discriminate.
    + by intros [= <- <-].
  - intros self w'. rewrite init_run.
    destruct (NovaKeystoneAuth.get_nova_client region w) as [[v|e0] w0] eqn:Hget;
      [|discriminate].
    apply get_nova_client_Return in Hget as (c & -> & Hc & _).
    by intros [= <- <-].
Qed.

(** X14.  All drivers of a process share one client: after [__init__] has
    returned a driver, whatever the process does next, [__init__] returns an
    equal driver, on the same client and server manager, for any region, and
    changes nothing. *)
Theorem init_shares_client region1 region2 w self w1 w2 :
  VirtualMachineManager.__init__ region1 w = (Return self, w1) ->
  reachable w1 w2 ->
  VirtualMachineManager.__init__ region2 w2 = (Return self, w2).
Proof.
  rewrite init_run.
  destruct (NovaKeystoneAuth.get_nova_client region1 w) as [[v|e0] w0] eqn:Hget;
    [|discriminate].
  apply get_nova_client_Return in Hget as (c & -> & Hc & _).
  intros [= <- <-] [_ Hkept]%reachable_caches_kept.
  rewrite init_run, (get_nova_client_cached region2 w2 c); [done|].
  by apply Hkept.
Qed.

(** X15.  No operation of a driver touches the caches: after [build],
    [delete], [get_amphora] or [status], whatever their outcome, the cached
    session and the cached client are the ones of before and no session has
    been created. *)
Theorem driver_operations_keep_caches self w :
  (forall name flavor image key groups nets files data,
     auth_view (VirtualMachineManager.build self name flavor image key groups
                  nets files data w).2 = auth_view w) /\
  (forall amphora_id,
     auth_view (VirtualMachineManager.delete self amphora_id w).2
     = auth_view w) /\
  (forall amphora_id,
     auth_view (VirtualMachineManager.get_amphora self amphora_id w).2
     = auth_view w) /\
  (forall amphora_id,
     auth_view (VirtualMachineManager.status self amphora_id w).2
     = auth_view w).
Proof.
  split; [|split; [|split]]; intros.
  - apply quiet_build.
  - apply quiet_delete.
  - apply quiet_get_amphora.
  - apply quiet_status.
Qed.

Lemma caches_configured_view w w' :
  NovaKeystoneAuth_keystone_session w' = NovaKeystoneAuth_keystone_session w ->
  NovaKeystoneAuth_nova_client w' = NovaKeystoneAuth_nova_client w ->
  caches_configured w -> caches_configured w'.
Proof. unfold caches_configured. by intros -> ->. Qed.

Lemma caches_configured_quiet {A} (m : M P A) w :
  quiet m -> caches_configured w -> caches_configured (m w).2.
Proof.
  intros Hm. specialize (Hm w). unfold auth_view in Hm.
  injection Hm as Hs Hc _. by apply caches_configured_view.
Qed.

Lemma get_keystone_session_configured w :
  caches_configured w ->
  caches_configured (NovaKeystoneAuth._get_keystone_session w).2.
Proof.
  intros Hinv.
  destruct (NovaKeystoneAuth_keystone_session w) as [s|] eqn:Hs.
  - by rewrite (get_keystone_session_cached w s).
  - assert (NovaKeystoneAuth_nova_client w = None) as Hc.
    { destruct (NovaKeystoneAuth_nova_client w) as [c|] eqn:Hc; [|done].
      destruct Hinv as [_ Hinv]. apply Hinv in Hc as (_ & _ & ?). congruence. }
    rewrite get_keystone_session_fresh by done.
    destruct (Password_init _ (provider w)) as [[[]|e1] p1].
    + destruct (Session_init _ p1) as [[[]|e2] p2].
      * split; simpl.
        -- by intros s [= <-].
        -- intros c. rewrite Hc. discriminate.
      * destruct (is_Exception e2); by apply (caches_configured_view w).
    + destruct (is_Exception e1); by apply (caches_configured_view w).
Qed.

Lemma get_nova_client_configured region w :
  caches_configured w ->
  caches_configured (NovaKeystoneAuth.get_nova_client region w).2.
Proof.
  intros Hinv.
  destruct (NovaKeystoneAuth_nova_client w) as [c|] eqn:Hc.
  - by rewrite (get_nova_client_cached region w c).
  - rewrite get_nova_client_fresh by done.
    pose proof (get_keystone_session_configured w Hinv) as Hinv1.
    pose proof (get_keystone_session_kept w) as [_ Hnc].
    destruct (NovaKeystoneAuth._get_keystone_session w) as [[v|e0] w0] eqn:Hget;
      simpl in Hinv1, Hnc.
    + apply get_keystone_session_Return in Hget as (s & -> & Hs0).
      pose proof Hinv1 as [Hsession _]. apply Hsession in Hs0 as Heq. subst s.
      cbv zeta. destruct (Client_init _ (provider w0)) as [[[]|e1] p2].
      * split; simpl; [apply Hinv1|]. by intros c [= <-].
      * destruct (is_Exception e1); by apply (caches_configured_view w0).
    + destruct (is_Exception e0); by apply (caches_configured_view w0).
Qed.

Lemma step_caches_configured w w' :
  step w w' -> caches_configured w -> caches_configured w'.
Proof.
  intros Hstep. destruct Hstep.
  - apply get_keystone_session_configured.
  - apply get_nova_client_configured.
  - rewrite init_run. intros Hinv%(get_nova_client_configured region).
    by destruct (NovaKeystoneAuth.get_nova_client region w) as [[[c|]|e] w'].
  - apply caches_configured_quiet, quiet_build.
  - apply caches_configured_quiet, quiet_delete.
  - apply caches_configured_quiet, quiet_status.
  - apply caches_configured_quiet, quiet_get_amphora.
  - apply caches_configured_quiet, quiet_translate_amphora.
  - by apply caches_configured_view.
Qed.

(** X16.  In every world a process reaches from a fresh start, a cached
    session is the session built from the configured credentials, and a
    cached client is of API version [NOVA_2] and on that session, which is
    then cached too: no client is ever cached without its session. *)
Theorem reachable_caches_configured (p : P) w :
  reachable (fresh p) w -> caches_configured w.
Proof.
  intros Hreach.
  assert (caches_configured (fresh p)) as Hfresh by (by split).
  revert Hfresh. induction Hreach as [w|w1 w2 w3 Hstep _ IH]; [done|].
  intros Hinv. by apply IH, (step_caches_configured w1).
Qed.

End AuthMore.

(** ** More on [MemberResponse.from_data_model] *)

Section MemberMore.
Context {data_model : Type} {base : member.BaseMemberType data_model}.

(** X17.  [from_data_model] adds no failure and touches no field but the
    name: it raises exactly what the inherited mapping raises; and what it
    returns is the inherited response with, at most, another name, which is
    the inherited name itself when that name is a non-empty string. *)
Theorem from_data_model_name_only (dm : data_model) (children : bool) :
  (forall e,
     member.from_data_model dm children = Raise e <->
     member.super_from_data_model dm children = Raise e) /\
  (forall response,
     member.from_data_model dm children = Return response ->
     exists mapped,
       member.super_from_data_model dm children = Return mapped /\
       response = member.set_name (member.name response) mapped /\
       (member.truth (member.name mapped) = true -> response = mapped)).
Proof.
  unfold member.from_data_model.
  destruct (member.super_from_data_model dm children) as [mapped|e0].
  - split; [by split|].
    intros response [= <-]. exists mapped. split; [done|].
    destruct mapped as [id name]. destruct name as [| |name]; simpl; try done.
    by destruct (String.eqb name "").
  - split; [done|]. discriminate.
Qed.

End MemberMore.

(** ** The further theorems at work *)

Lemma translate_amphora_ignores_other_networks_witness :
  VirtualMachineManager._translate_amphora (CONF := example.conf)
    (example.driver None) (Some example.vm_123) (fresh example.up) =
  VirtualMachineManager._translate_amphora (CONF := example.conf)
    (example.driver None) (Some scenario.vm_123_mgmt_only) (fresh example.up).
Proof.
  apply (translate_amphora_ignores_other_networks (CONF := example.conf)
           (example.driver None) example.vm_123 scenario.vm_123_mgmt_only
           (fresh example.up));
    vm_compute; reflexivity.
Defined.

Lemma get_amphora_returns_translation_witness :
  exists server p',
    servers_get (Provider := example.cloud_provider)
      (VirtualMachineManager.manager (example.driver None)) "vm-123"
      (provider (fresh example.up)) = (Return (Some server), p') /\
    {| models.compute_id := "vm-123"; models.status := "ACTIVE";
       models.lb_network_ip := Some "192.168.1.9" |} =
    {| models.compute_id := nova.id server;
       models.status := nova.status server;
       models.lb_network_ip := management_address (CONF := example.conf) server |} /\
    (VirtualMachineManager.get_amphora (prov := example.cloud_provider)
       (CONF := example.conf) (example.driver None) "vm-123"
       (fresh example.up)).2 =
    called (CallGet (VirtualMachineManager.manager (example.driver None)) "vm-123")
      true p' (fresh example.up).
Proof.
  apply (get_amphora_returns_translation (prov := example.cloud_provider)
           (CONF := example.conf) (example.driver None) "vm-123"
           (fresh example.up)).
  vm_compute. reflexivity.
Defined.

Lemma get_amphora_translation_error_raw_witness :
  VirtualMachineManager.get_amphora (prov := example.cloud_provider)
    (CONF := example.conf) (example.driver None) "vm-bare" (fresh example.up) =
  (Raise IndexError,
   called (CallGet (VirtualMachineManager.manager (example.driver None)) "vm-bare")
     true example.up (fresh example.up)) /\
  is_domain_error IndexError = false /\
  log (VirtualMachineManager.get_amphora (prov := example.cloud_provider)
         (CONF := example.conf) (example.driver None) "vm-bare"
         (fresh example.up)).2 = log (fresh example.up).
Proof.
  apply (get_amphora_translation_error_raw (prov := example.cloud_provider)
           (CONF := example.conf) (example.driver None) "vm-bare"
           (fresh example.up) (Some example.vm_bare) example.up IndexError);
    vm_compute; reflexivity.
Defined.

Lemma status_log_witness :
  log (VirtualMachineManager.status (prov := example.cloud_provider)
         (CONF := example.conf) (example.driver None) "vm-404"
         (fresh example.up)).2 =
  [] ++ ["Error retrieving nova virtual machine.";
         "Error retrieving nova virtual machine status."] /\
  log (VirtualMachineManager.status (prov := example.cloud_provider)
         (CONF := example.conf) (example.driver None) "vm-bare"
         (fresh example.up)).2 =
  [] ++ ["Error retrieving nova virtual machine status."] /\
  log (VirtualMachineManager.status (prov := example.cloud_provider)
         (CONF := example.conf) (example.driver None) "vm-123"
         (fresh example.up)).2 = [].
Proof.
  split; [|split].
  - destruct (status_log (prov := example.cloud_provider)
                (CONF := example.conf) (example.driver None) "vm-404"
                (fresh example.up)) as (Hremote & _).
    apply (Hremote example.not_found example.up); reflexivity.
  - destruct (status_log (prov := example.cloud_provider)
                (CONF := example.conf) (example.driver None) "vm-bare"
                (fresh example.up)) as (_ & Htranslation & _).
    apply (Htranslation (Some example.vm_bare) example.up IndexError);
      vm_compute; reflexivity.
  - destruct (status_log (prov := example.cloud_provider)
                (CONF := example.conf) (example.driver None) "vm-123"
                (fresh example.up)) as (_ & _ & Hreturned).
    apply (Hreturned AMPHORA_UP). vm_compute. reflexivity.
Defined.

Lemma get_amphora_and_status_repeatable_witness :
  ((VirtualMachineManager.get_amphora (prov := example.cloud_provider)
      (CONF := example.conf) (example.driver None) "vm-123" (fresh example.up)).1 =
   (VirtualMachineManager.get_amphora (prov := example.cloud_provider)
      (CONF := example.conf) (example.driver None) "vm-123"
      (logged "noise" (fresh example.up))).1 /\
   (VirtualMachineManager.status (prov := example.cloud_provider)
      (CONF := example.conf) (example.driver None) "vm-123" (fresh example.up)).1 =
   (VirtualMachineManager.status (prov := example.cloud_provider)
      (CONF := example.conf) (example.driver None) "vm-123"
      (logged "noise" (fresh example.up))).1) /\
  ((VirtualMachineManager.get_amphora (prov := example.cloud_provider)
      (CONF := example.conf) (example.driver None) "vm-123"
      (VirtualMachineManager.get_amphora (prov := example.cloud_provider)
         (CONF := example.conf) (example.driver None) "vm-123"
         (fresh example.up)).2).1 =
   (VirtualMachineManager.get_amphora (prov := example.cloud_provider)
      (CONF := example.conf) (example.driver None) "vm-123" (fresh example.up)).1 /\
   (VirtualMachineManager.status (prov := example.cloud_provider)
      (CONF := example.conf) (example.driver None) "vm-123"
      (VirtualMachineManager.status (prov := example.cloud_provider)
         (CONF := example.conf) (example.driver None) "vm-123"
         (fresh example.up)).2).1 =
   (VirtualMachineManager.status (prov := example.cloud_provider)
      (CONF := example.conf) (example.driver None) "vm-123" (fresh example.up)).1).
Proof.
  destruct (get_amphora_and_status_repeatable (prov := example.cloud_provider)
              (CONF := example.conf) (example.driver None) "vm-123"
              (fresh example.up)) as [Hprovider Hagain].
  split.
  - apply (Hprovider (logged "noise" (fresh example.up))). reflexivity.
  - apply Hagain. reflexivity.
Defined.

Lemma failed_session_not_cached_witness :
  NovaKeystoneAuth_keystone_session
    (NovaKeystoneAuth._get_keystone_session (prov := example.cloud_provider)
       (CONF := example.conf) (fresh example.down)).2 = None /\
  (NovaKeystoneAuth._get_keystone_session (prov := example.cloud_provider)
     (CONF := example.conf)
     (with_provider example.up
        (NovaKeystoneAuth._get_keystone_session (prov := example.cloud_provider)
           (CONF := example.conf) (fresh example.down)).2)).1
  = Return (Some (configured_session (CONF := example.conf))).
Proof.
  destruct (failed_session_not_cached (prov := example.cloud_provider)
              (CONF := example.conf) (fresh example.down) example.unreachable
              (NovaKeystoneAuth._get_keystone_session
                 (prov := example.cloud_provider) (CONF := example.conf)
                 (fresh example.down)).2)
    as (Hempty & _ & Hretry).
  - vm_compute. reflexivity.
  - split; [exact Hempty|].
    apply (Hretry example.up example.up example.up); reflexivity.
Defined.

Lemma failed_client_not_cached_witness :
  NovaKeystoneAuth_nova_client scenario.half_way = None /\
  NovaKeystoneAuth_keystone_session scenario.half_way
  = Some (configured_session (CONF := example.conf)) /\
  (NovaKeystoneAuth.get_nova_client (prov := scenario.late_compute_provider)
     (CONF := example.conf) (consts := example.consts) (Some "RegionTwo")
     (with_provider example.up scenario.half_way)).1
  = Return (Some (example.the_client (Some "RegionTwo"))).
Proof.
  destruct (failed_client_not_cached (prov := scenario.late_compute_provider)
              (CONF := example.conf) (consts := example.consts)
              (Some "RegionOne") (fresh example.down) example.unreachable
              scenario.half_way)
    as (Hempty & Hretry).
  - vm_compute. reflexivity.
  - split; [exact Hempty|]. split; [vm_compute; reflexivity|].
    apply (Hretry (Some "RegionTwo") (configured_session (CONF := example.conf))
             example.up example.up); vm_compute; reflexivity.
Defined.

Lemma session_failure_through_get_nova_client_witness :
  exists w',
    NovaKeystoneAuth.get_nova_client (prov := example.cloud_provider)
      (CONF := example.conf) (consts := example.consts) (Some "RegionOne")
      (fresh example.down) = (Raise example.unreachable, w') /\
    events w' = events (fresh example.down) ++
      [{| ev_call := CallPassword (configured_credentials (CONF := example.conf));
          ev_ok := false |}] /\
    log w' = log (fresh example.down) ++
               ["Error creating Keystone session.";
                "Error creating Nova client."] /\
    NovaKeystoneAuth_keystone_session w' = None /\
    NovaKeystoneAuth_nova_client w' = None.
Proof.
  apply (session_failure_through_get_nova_client
           (prov := example.cloud_provider) (CONF := example.conf)
           (consts := example.consts) (Some "RegionOne") (fresh example.down)
           example.unreachable example.down); reflexivity.
Defined.

Lemma init_outcome_witness :
  NovaKeystoneAuth.get_nova_client (prov := example.cloud_provider)
    (CONF := example.conf) (consts := example.consts) (Some "RegionOne")
    (fresh example.down) = (Raise example.unreachable, scenario.failed) /\
  (NovaKeystoneAuth.get_nova_client (prov := example.cloud_provider)
     (CONF := example.conf) (consts := example.consts) (Some "RegionOne")
     (fresh example.up)
   = (Return (Some (VirtualMachineManager._nova_client
                      (example.driver (Some "RegionOne")))), example.started) /\
   VirtualMachineManager.manager (example.driver (Some "RegionOne"))
   = servers (VirtualMachineManager._nova_client
                (example.driver (Some "RegionOne"))) /\
   NovaKeystoneAuth_nova_client example.started
   = Some (VirtualMachineManager._nova_client
             (example.driver (Some "RegionOne")))).
Proof.
  split.
  - destruct (init_outcome (prov := example.cloud_provider)
                (CONF := example.conf) (consts := example.consts)
                (Some "RegionOne") (fresh example.down)) as [Hraise _].
    apply Hraise. vm_compute. reflexivity.
  - destruct (init_outcome (prov := example.cloud_provider)
                (CONF := example.conf) (consts := example.consts)
                (Some "RegionOne") (fresh example.up)) as [_ Hreturn].
    apply Hreturn. vm_compute. reflexivity.
Defined.

Lemma init_shares_client_witness :
  VirtualMachineManager.__init__ (prov := example.cloud_provider)
    (CONF := example.conf) (consts := example.consts) (Some "RegionTwo")
    example.later = (Return (example.driver (Some "RegionOne")), example.later).
Proof.
  apply (init_shares_client (prov := example.cloud_provider)
           (CONF := example.conf) (consts := example.consts)
           (Some "RegionOne") (Some "RegionTwo") (fresh example.up)
           (example.driver (Some "RegionOne")) example.started example.later).
  - vm_compute. reflexivity.
  - apply rtc_once.
    exact (step_build (prov := example.cloud_provider) (CONF := example.conf)
             (consts := example.consts) example.started
             (example.driver (Some "RegionOne")) "amphora-1" None
             (Some "img-1") None None (PyList ["net-a"; "net-b"]) None None).
Defined.

Lemma reachable_caches_configured_witness :
  caches_configured (CONF := example.conf) (consts := example.consts)
    example.later.
Proof.
  apply (reachable_caches_configured (prov := example.cloud_provider)
           (CONF := example.conf) (consts := example.consts) example.up
           example.later).
  apply rtc_l with example.started.
  - exact (step_get_nova_client (prov := example.cloud_provider)
             (CONF := example.conf) (consts := example.consts)
             (fresh example.up) (Some "RegionOne")).
  - apply rtc_once.
    exact (step_build (prov := example.cloud_provider) (CONF := example.conf)
             (consts := example.consts) example.started
             (example.driver (Some "RegionOne")) "amphora-1" None
             (Some "img-1") None None (PyList ["net-a"; "net-b"]) None None).
Defined.

Lemma from_data_model_name_only_witness :
  exists mapped,
    member.super_from_data_model (BaseMemberType := example.named_base)
      (Some "web-1") false = Return mapped /\
    member.set_name (member.Value "web-1") example.blank
    = member.set_name
        (member.name (member.set_name (member.Value "web-1") example.blank))
        mapped /\
    (member.truth (member.name mapped) = true ->
     member.set_name (member.Value "web-1") example.blank = mapped).
Proof.
  destruct (from_data_model_name_only (base := example.named_base)
              (Some "web-1") false) as [_ Hreturn].
  apply (Hreturn (member.set_name (member.Value "web-1") example.blank)).
  reflexivity.
Defined.

Lemma translate_amphora_any_order_witness :
  dict_keys (nova.addresses example.vm_123) = ["mgmt"; "public"] /\
  translate_in_order (CONF := example.conf) ["public"; "mgmt"] example.vm_123
    (fresh example.up) =
  VirtualMachineManager._translate_amphora (CONF := example.conf)
    (example.driver None) (Some example.vm_123) (fresh example.up).
Proof.
  split; [vm_compute; reflexivity|].
  apply (translate_amphora_any_order (CONF := example.conf)
           (example.driver None) example.vm_123 ["public"; "mgmt"]
           (fresh example.up)).
  - apply NoDup_cons. split; [|apply NoDup_singleton].
    rewrite elem_of_cons, elem_of_nil. intros [[=]|[]].
  - intros name. rewrite <- elem_of_dict_keys.
    replace (dict_keys (nova.addresses example.vm_123))
      with ["mgmt"; "public"] by (vm_compute; reflexivity).
    rewrite !elem_of_cons, !elem_of_nil. tauto.
Defined.
